(** * Universal Data Converter: the format-normalisation core of [app.py]

    A shallow embedding of the decoders ([_read_csv], [_read_json],
    [_read_xml], [_read_pdf]) and of the encoder ([df_to_bytes]) of
    [src/app.py], together with the fragment of the Python runtime and of
    pandas that these functions call.

    Conventions.
    - A Python [str] is a Rocq [string] holding the UTF-8 encoding of the
      text, so [s.encode("utf-8")] is the identity on the representation
      and [b.decode("utf-8")] is a validity check.
    - A Python exception is the [Raise] case of [result]; [try/except
      Exception] is [try_except].
    - An uploaded file is its content: a fresh buffer is made of the
      content for each run, and a decoder reads it from its start. A
      buffer can be closed by the library it is handed to, which
      matters to [_read_xml] alone, the only decoder that rewinds the
      buffer after a library call has failed ([read_xml_closes]).
    - The interpreter's limits are part of the model where an
      [except] of the program meets them: the digits of an integer and
      the depth of nesting in [json.loads].
    - Library functions whose behaviour is not fixed by the program (the
      spreadsheet writer, the XML parser, float formatting, ...) are the
      methods of the class [Library]; everything proved below holds for
      every instance. [reference_library] is an instance used to run the
      model on concrete inputs. *)

From Stdlib Require Import String Ascii List ZArith Bool.
From Stdlib Require Import Numbers.DecimalString Numbers.DecimalPos.
From Stdlib Require OrderedTypeEx.
Import ListNotations.

Local Open Scope string_scope.
Local Open Scope list_scope.

(** ** Exceptions *)

Inductive exn : Type :=
| ValueError
| IndexError
| AttributeError
| UnicodeDecodeError
| JSONDecodeError
| EmptyDataError
| ParserError
| XMLParseError
| RecursionError
| LibraryError.

Inductive result (A : Type) : Type :=
| Ok (a : A)
| Raise (e : exn).

Arguments Ok {A} a.
Arguments Raise {A} e.

Definition bind {A B : Type} (r : result A) (k : A -> result B) : result B :=
  match r with
  | Ok a => k a
  | Raise e => Raise e
  end.

(** [try: r except Exception: handler] *)
Definition try_except {A : Type} (r : result A) (handler : result A) : result A :=
  match r with
  | Ok a => Ok a
  | Raise _ => handler
  end.

Definition is_ok {A : Type} (r : result A) : bool :=
  match r with Ok _ => true | Raise _ => false end.

Declare Scope result_scope.
Delimit Scope result_scope with result.
Notation "x <- r ;; k" := (bind r (fun x => k))
  (at level 61, r at next level, right associativity) : result_scope.
Local Open Scope result_scope.

(** ** Python strings *)

Module Py.

Definition chars (s : string) : list ascii := list_ascii_of_string s.
Definition text (l : list ascii) : string := string_of_list_ascii l.

Definition code (c : ascii) : N := N_of_ascii c.

(** [str(n)] for an [int]. *)
Definition str_of_Z (n : Z) : string :=
  match n with
  | Z0 => "0"
  | Zpos p => NilEmpty.string_of_uint (Pos.to_uint p)
  | Zneg p => "-" ++ NilEmpty.string_of_uint (Pos.to_uint p)
  end.

Definition str_of_bool (b : bool) : string :=
  if b then "True" else "False".

(** One white-space character at the head of a UTF-8 text, as
    [str.isspace] defines it: U+0009..U+000D, U+001C..U+0020, U+0085,
    U+00A0, U+1680, U+2000..U+200A, U+2028, U+2029, U+202F, U+205F and
    U+3000. Returns the number of bytes the character takes, 0 if the
    text does not start with white space. *)
Definition space_width (l : list N) : nat :=
  match l with
  | (9 | 10 | 11 | 12 | 13 | 28 | 29 | 30 | 31 | 32)%N :: _ => 1
  | 194%N :: (133 | 160)%N :: _ => 2
  | 225%N :: 154%N :: 128%N :: _ => 3
  | 226%N :: 128%N ::
      (128 | 129 | 130 | 131 | 132 | 133 | 134 | 135 | 136 | 137 | 138
       | 168 | 169 | 175)%N :: _ => 3
  | 226%N :: 129%N :: 159%N :: _ => 3
  | 227%N :: 128%N :: 128%N :: _ => 3
  | _ => 0
  end.

(** The same test read backwards, on the reversed text. *)
Definition space_width_rev (l : list N) : nat :=
  match l with
  | (9 | 10 | 11 | 12 | 13 | 28 | 29 | 30 | 31 | 32)%N :: _ => 1
  | (133 | 160)%N :: 194%N :: _ => 2
  | 128%N :: 154%N :: 225%N :: _ => 3
  | (128 | 129 | 130 | 131 | 132 | 133 | 134 | 135 | 136 | 137 | 138
     | 168 | 169 | 175)%N :: 128%N :: 226%N :: _ => 3
  | 159%N :: 129%N :: 226%N :: _ => 3
  | 128%N :: 128%N :: 227%N :: _ => 3
  | _ => 0
  end.

Fixpoint drop_spaces (width : list N -> nat) (fuel : nat) (l : list ascii)
  : list ascii :=
  match fuel with
  | O => l
  | S fuel' =>
      match width (map code l) with
      | O => l
      | w => drop_spaces width fuel' (skipn w l)
      end
  end.

(** Truth value of a [list]: non-empty. *)
Definition nonempty {A : Type} (l : list A) : bool :=
  match l with
  | [] => false
  | _ :: _ => true
  end.

Definition lstrip_chars (l : list ascii) : list ascii :=
  drop_spaces space_width (List.length l) l.

Definition rstrip_chars (l : list ascii) : list ascii :=
  rev (drop_spaces space_width_rev (List.length l) (rev l)).

(** [s.strip()] *)
Definition strip (s : string) : string :=
  text (rstrip_chars (lstrip_chars (chars s))).

(** [s.lower()] for ASCII text: the letters A..Z are lowered. On text
    with other characters the definition still lowers the ASCII letters
    only, where [str.lower] also lowers the other cased letters; the two
    agree on every test the program makes of a lowered text (equality
    with, or a prefix of, the ASCII words csv, excel, json, xml, .csv,
    .xlsx, .xls, .json, .xml and .pdf: no other character lowers to a
    letter of these words). A statement about the lowered text itself is
    made for ASCII text only. *)
Definition lower_char (c : ascii) : ascii :=
  let n := code c in
  if ((65 <=? n) && (n <=? 90))%N then ascii_of_N (n + 32) else c.

Definition lower (s : string) : string := text (map lower_char (chars s)).

(** [s.startswith(p)] *)
Definition startswith (s p : string) : bool :=
  String.eqb (text (firstn (String.length p) (chars s))) p.

(** [s.isspace()]: at least one character, and white space only. *)
Definition isspace (s : string) : bool :=
  nonempty (chars s)
  && match drop_spaces space_width (String.length s) (chars s) with
     | [] => true
     | _ :: _ => false
     end.

(** The text with every apostrophe turned into a double quote: a way
    to write quoted text in this file. *)
Definition dq (s : string) : string :=
  text (map (fun c => if (code c =? 39)%N then ascii_of_N 34 else c) (chars s)).

(** Truth value of a [str]: non-empty. *)
Definition truthy (s : string) : bool :=
  match s with
  | EmptyString => false
  | String _ _ => true
  end.

(** The texts written one after the other. *)
Fixpoint cat (parts : list string) : string :=
  match parts with
  | [] => ""
  | p :: ps => p ++ cat ps
  end.

(** [sep.join(parts)] *)
Fixpoint join (sep : string) (parts : list string) : string :=
  match parts with
  | [] => ""
  | [p] => p
  | p :: ps => p ++ sep ++ join sep ps
  end.

(** [sorted(set(keys))] on strings: ascending code points, each key
    once. *)
Fixpoint insert_sorted (k : string) (l : list string) : list string :=
  match l with
  | [] => [k]
  | k' :: l' =>
      match String.compare k k' with
      | Lt => k :: l
      | Eq => l
      | Gt => k' :: insert_sorted k l'
      end
  end.

Definition sorted_set (ks : list string) : list string :=
  fold_left (fun acc k => insert_sorted k acc) ks [].

End Py.

(** ** Python dicts

    Insertion ordered: assigning to a key that is present replaces its
    value where it stands, a new key goes to the end. *)

Module Dict.
Section Dict.
Context {K V : Type} (eqb : K -> K -> bool).

(** [d[k] = v] *)
Fixpoint set (k : K) (v : V) (d : list (K * V)) : list (K * V) :=
  match d with
  | [] => [(k, v)]
  | (k', v') :: d' =>
      if eqb k k' then (k, v) :: d' else (k', v') :: set k v d'
  end.

(** [d.get(k)] *)
Fixpoint get (k : K) (d : list (K * V)) : option V :=
  match d with
  | [] => None
  | (k', v') :: d' => if eqb k k' then Some v' else get k d'
  end.

(** [dict(pairs)], also a dict comprehension over [pairs]. *)
Definition of_pairs (pairs : list (K * V)) : list (K * V) :=
  fold_left (fun d kv => set (fst kv) (snd kv) d) pairs [].

Definition keys (d : list (K * V)) : list K := map fst d.
End Dict.
End Dict.

(** ** JSON values and [json.loads]

    What [json.loads] returns: [None], [bool], [int], [float], [str],
    [list] and [dict] (insertion ordered, a repeated key keeps its first
    position and its last value). *)

Module Json.

(** A Python [float], named by what it was made from: the not-a-number
    value, the double nearest to an integer, or the double that
    [float(lexeme)] yields. The model never compares two floats. *)
Inductive float : Type :=
| FNaN
| FOfInt (n : Z)
| FOfText (lexeme : string).

#[warnings="-register-all"]
Inductive json : Type :=
| JNull
| JBool (b : bool)
| JInt (n : Z)
| JFloat (f : float)
| JStr (s : string)
| JList (items : list json)
| JDict (fields : list (string * json)).

Definition dict_set {V : Type} := @Dict.set string V String.eqb.
Definition dict_get {V : Type} := @Dict.get string V String.eqb.
Definition dict_of_pairs {V : Type} := @Dict.of_pairs string V String.eqb.

(** *** The scanner *)

Definition is_ws (c : ascii) : bool :=
  match Py.code c with
  | (32 | 9 | 10 | 13)%N => true
  | _ => false
  end.

Fixpoint skip_ws (l : list ascii) : list ascii :=
  match l with
  | c :: r => if is_ws c then skip_ws r else l
  | [] => []
  end.

Definition digit_value (c : ascii) : option Z :=
  let n := Py.code c in
  if ((48 <=? n) && (n <=? 57))%N then Some (Z.of_N n - 48)%Z else None.

Definition hex_value (c : ascii) : option N :=
  let n := Py.code c in
  if ((48 <=? n) && (n <=? 57))%N then Some (n - 48)%N
  else if ((97 <=? n) && (n <=? 102))%N then Some (n - 87)%N
  else if ((65 <=? n) && (n <=? 70))%N then Some (n - 55)%N
  else None.

Fixpoint span_digits (l : list ascii) : list ascii * list ascii :=
  match l with
  | c :: r =>
      match digit_value c with
      | Some _ => let (ds, rest) := span_digits r in (c :: ds, rest)
      | None => ([], l)
      end
  | [] => ([], [])
  end.

Definition Z_of_digits (ds : list ascii) : Z :=
  fold_left (fun acc c =>
               match digit_value c with
               | Some d => (10 * acc + d)%Z
               | None => acc
               end) ds 0%Z.

(** The three groups of the number pattern: an optional minus sign and
    either a single 0 or a digit string that does not start with 0; a
    dot and one or more digits; an exponent mark, an optional sign and
    one or more digits. *)
Definition match_integer (l : list ascii)
  : option (bool * list ascii * list ascii) :=
  let (neg, r) := match l with
                  | "-"%char :: r => (true, r)
                  | _ => (false, l)
                  end in
  match r with
  | "0"%char :: r' => Some (neg, ["0"%char], r')
  | c :: _ =>
      match digit_value c with
      | Some _ => let (ds, r') := span_digits r in Some (neg, ds, r')
      | None => None
      end
  | [] => None
  end.

Definition match_frac (l : list ascii) : option (list ascii * list ascii) :=
  match l with
  | "."%char :: r =>
      match span_digits r with
      | ([], _) => None
      | (ds, r') => Some ("."%char :: ds, r')
      end
  | _ => None
  end.

Definition match_exp (l : list ascii) : option (list ascii * list ascii) :=
  match l with
  | c :: r =>
      if (Ascii.eqb c "e" || Ascii.eqb c "E")%bool then
        let (sign, r1) :=
          match r with
          | s :: r1 =>
              if (Ascii.eqb s "-" || Ascii.eqb s "+")%bool
              then ([s], r1) else ([], r)
          | [] => ([], r)
          end in
        match span_digits r1 with
        | ([], _) => None
        | (ds, r2) => Some (c :: sign ++ ds, r2)
        end
      else None
  | [] => None
  end.

(** CPython's default limit on the digits of an [int] made from text
    ([sys.get_int_max_str_digits()]): [int(numstr)] raises [ValueError]
    beyond it. A float has no such limit. *)
Definition max_str_digits : N := 4300.

(** A number at the head of [l]: [None] when there is none, the
    [ValueError] of an over-long integer, or the number and the rest. *)
Definition match_number (l : list ascii)
  : option (result (json * list ascii)) :=
  match match_integer l with
  | None => None
  | Some (neg, ds, r) =>
      let int_text := (if neg then ["-"%char] else []) ++ ds in
      let (frac, r1) := match match_frac r with
                        | Some (f, r1) => (f, r1)
                        | None => ([], r)
                        end in
      let (exp, r2) := match match_exp r1 with
                       | Some (e, r2) => (e, r2)
                       | None => ([], r1)
                       end in
      match frac, exp with
      | [], [] =>
          if (N.of_nat (List.length ds) <=? max_str_digits)%N then
            Some (Ok (JInt (if neg then - Z_of_digits ds else Z_of_digits ds)%Z,
                      r2))
          else Some (Raise ValueError)
      | _, _ =>
          Some (Ok (JFloat (FOfText (Py.text (int_text ++ frac ++ exp))), r2))
      end
  end.

(** UTF-8 encoding of a code point (a lone surrogate is encoded like any
    other three-byte code point). *)
Definition utf8_encode (cp : N) : list ascii :=
  let b (n : N) := ascii_of_N n in
  if (cp <? 128)%N then [b cp]
  else if (cp <? 2048)%N then
    [b (192 + cp / 64); b (128 + cp mod 64)]%N
  else if (cp <? 65536)%N then
    [b (224 + cp / 4096); b (128 + (cp / 64) mod 64); b (128 + cp mod 64)]%N
  else
    [b (240 + cp / 262144); b (128 + (cp / 4096) mod 64);
     b (128 + (cp / 64) mod 64); b (128 + cp mod 64)]%N.

Definition hex4 (l : list ascii) : option (N * list ascii) :=
  match l with
  | a :: b :: c :: d :: r =>
      match hex_value a, hex_value b, hex_value c, hex_value d with
      | Some x, Some y, Some z, Some w =>
          Some (((x * 16 + y) * 16 + z) * 16 + w, r)%N
      | _, _, _, _ => None
      end
  | _ => None
  end.

(** The escape after a backslash. *)
Definition scan_escape (l : list ascii) : option (list ascii * list ascii) :=
  match l with
  | c :: r =>
      match Py.code c with
      | 34%N => Some ([c], r)
      | 92%N => Some ([c], r)
      | 47%N => Some ([c], r)
      | 98%N => Some ([ascii_of_N 8], r)
      | 102%N => Some ([ascii_of_N 12], r)
      | 110%N => Some ([ascii_of_N 10], r)
      | 114%N => Some ([ascii_of_N 13], r)
      | 116%N => Some ([ascii_of_N 9], r)
      | 117%N =>
          match hex4 r with
          | None => None
          | Some (u, r1) =>
              let single := Some (utf8_encode u, r1) in
              if ((55296 <=? u) && (u <=? 56319))%N then
                match r1 with
                | "\"%char :: "u"%char :: r2 =>
                    match hex4 r2 with
                    | None => None
                    | Some (u2, r3) =>
                        if ((56320 <=? u2) && (u2 <=? 57343))%N then
                          Some (utf8_encode
                                  (65536 + (u - 55296) * 1024 + (u2 - 56320))%N,
                                r3)
                        else single
                    end
                | _ => single
                end
              else single
          end
      | _ => None
      end
  | [] => None
  end.

(** [scanstring], strict: the text after the opening quote. *)
Fixpoint scanstring (fuel : nat) (l : list ascii) (acc : list ascii)
  : option (string * list ascii) :=
  match fuel with
  | O => None
  | S fuel' =>
      match l with
      | [] => None
      | c :: r =>
          if Ascii.eqb c "034" then Some (Py.text (rev acc), r)
          else if Ascii.eqb c "\" then
            match scan_escape r with
            | Some (bytes, r') => scanstring fuel' r' (rev bytes ++ acc)
            | None => None
            end
          else if (Py.code c <? 32)%N then None
          else scanstring fuel' r (c :: acc)
      end
  end.

Definition scan_string (l : list ascii) : option (string * list ascii) :=
  scanstring (S (List.length l)) l [].

Section Containers.
(** The value scanner of the enclosing level. *)
Variable scan_once : list ascii -> result (json * list ascii).

(** [l] stands at a value of the array. *)
Fixpoint array_items (fuel : nat) (l : list ascii) (acc : list json)
  : result (json * list ascii) :=
  match fuel with
  | O => Raise JSONDecodeError
  | S fuel' =>
      match scan_once l with
      | Raise e => Raise e
      | Ok (v, r) =>
          match skip_ws r with
          | "]"%char :: r' => Ok (JList (rev (v :: acc)), r')
          | ","%char :: r' => array_items fuel' (skip_ws r') (v :: acc)
          | _ => Raise JSONDecodeError
          end
      end
  end.

Definition parse_array (l : list ascii) : result (json * list ascii) :=
  match skip_ws l with
  | "]"%char :: r => Ok (JList [], r)
  | l' => array_items (S (List.length l')) l' []
  end.

(** [l] stands at the opening quote of a key. *)
Fixpoint object_pairs (fuel : nat) (l : list ascii)
  (acc : list (string * json)) : result (json * list ascii) :=
  match fuel with
  | O => Raise JSONDecodeError
  | S fuel' =>
      match l with
      | "034"%char :: r =>
          match scan_string r with
          | None => Raise JSONDecodeError
          | Some (key, r1) =>
              match skip_ws r1 with
              | ":"%char :: r2 =>
                  match scan_once (skip_ws r2) with
                  | Raise e => Raise e
                  | Ok (v, r3) =>
                      match skip_ws r3 with
                      | "}"%char :: r4 =>
                          Ok (JDict (dict_of_pairs (rev ((key, v) :: acc))),
                              r4)
                      | ","%char :: r4 =>
                          object_pairs fuel' (skip_ws r4) ((key, v) :: acc)
                      | _ => Raise JSONDecodeError
                      end
                  end
              | _ => Raise JSONDecodeError
              end
          end
      | _ => Raise JSONDecodeError
      end
  end.

Definition parse_object (l : list ascii) : result (json * list ascii) :=
  match skip_ws l with
  | "}"%char :: r => Ok (JDict [], r)
  | l' => object_pairs (S (List.length l')) l' []
  end.
End Containers.

Definition starts_with (p : string) (l : list ascii) : option (list ascii) :=
  let n := String.length p in
  if String.eqb (Py.text (firstn n l)) p then Some (skipn n l) else None.

(** [scan_once]: one value at the head of [l]. The scanner calls itself
    for the values of an object and of an array, and the interpreter
    bounds the depth of these calls: [room] is the number of nested
    containers that may still be entered, and entering one more raises
    [RecursionError]. A string, a number or a constant takes no room.
    An integer of more than [max_str_digits] digits raises
    [ValueError]. *)
Fixpoint scan_value (room : nat) (l : list ascii) {struct room}
  : result (json * list ascii) :=
  match l with
  | [] => Raise JSONDecodeError
  | c :: r =>
      if Ascii.eqb c "034" then
        match scan_string r with
        | Some (s, r') => Ok (JStr s, r')
        | None => Raise JSONDecodeError
        end
      else if Ascii.eqb c "{" then
        match room with
        | O => Raise RecursionError
        | S room' => parse_object (scan_value room') r
        end
      else if Ascii.eqb c "[" then
        match room with
        | O => Raise RecursionError
        | S room' => parse_array (scan_value room') r
        end
      else
        match starts_with "null" l, starts_with "true" l,
              starts_with "false" l with
        | Some r', _, _ => Ok (JNull, r')
        | _, Some r', _ => Ok (JBool true, r')
        | _, _, Some r' => Ok (JBool false, r')
        | None, None, None =>
            match match_number l with
            | Some res => res
            | None =>
                match starts_with "NaN" l, starts_with "Infinity" l,
                      starts_with "-Infinity" l with
                | Some r', _, _ => Ok (JFloat FNaN, r')
                | _, Some r', _ => Ok (JFloat (FOfText "Infinity"), r')
                | _, _, Some r' => Ok (JFloat (FOfText "-Infinity"), r')
                | None, None, None => Raise JSONDecodeError
                end
            end
        end
  end.

(** [JSONDecoder.decode] with [room] levels of nesting left: white
    space, one value, white space, end of text. *)
Definition decode (room : nat) (s : string) : result json :=
  match scan_value room (skip_ws (Py.chars s)) with
  | Ok (v, r) =>
      match skip_ws r with
      | [] => Ok v
      | _ :: _ => Raise JSONDecodeError
      end
  | Raise e => Raise e
  end.

(** The nesting that [json.loads] can always enter when the program
    calls it: the program never lowers the interpreter's recursion
    limit (1000 by default) and calls the decoder a few dozen frames
    deep. How much more can be entered is left to the class [Library]
    ([recursion_room]). *)
Definition least_room : nat := 16.

End Json.

(** ** Bytes *)

Module Bytes.

(** Well-formed UTF-8: shortest form, no surrogates, at most U+10FFFF.
    [pending] continuation bytes are still due, the next one within
    [lo..hi]. *)
Fixpoint utf8_valid_from (pending : nat) (lo hi : N) (l : list N) : bool :=
  match l with
  | [] => Nat.eqb pending 0
  | b :: r =>
      match pending with
      | S p => ((lo <=? b) && (b <=? hi))%N && utf8_valid_from p 128 191 r
      | O =>
          if (b <? 128)%N then utf8_valid_from 0 128 191 r
          else if ((194 <=? b) && (b <=? 223))%N then utf8_valid_from 1 128 191 r
          else if (b =? 224)%N then utf8_valid_from 2 160 191 r
          else if (b =? 237)%N then utf8_valid_from 2 128 159 r
          else if ((225 <=? b) && (b <=? 239))%N then utf8_valid_from 2 128 191 r
          else if (b =? 240)%N then utf8_valid_from 3 144 191 r
          else if ((241 <=? b) && (b <=? 243))%N then utf8_valid_from 3 128 191 r
          else if (b =? 244)%N then utf8_valid_from 3 128 143 r
          else false
      end
  end.

(** [raw.decode("utf-8")] *)
Definition decode_utf8 (raw : string) : result string :=
  if utf8_valid_from 0 128 191 (map Py.code (Py.chars raw))
  then Ok raw else Raise UnicodeDecodeError.

(** Iterating a binary file: the lines, each with its line feed. *)
Fixpoint lines_from (cur : list ascii) (l : list ascii) : list string :=
  match l with
  | [] => match cur with
          | [] => []
          | _ :: _ => [Py.text (rev cur)]
          end
  | c :: r =>
      if (Py.code c =? 10)%N
      then Py.text (rev (c :: cur)) :: lines_from [] r
      else lines_from (c :: cur) r
  end.

Definition readlines (raw : string) : list string :=
  lines_from [] (Py.chars raw).

End Bytes.

Import Json.


(** ** The tabular model: pandas' [DataFrame]

    A frame is kept row by row: [columns] are the column labels and every
    row has one cell per column. The row index is not kept: every frame
    the program builds is written with [index=False] or read through
    [to_dict(orient="records")]. The constructors below follow
    pandas 2. *)

(** A column label: a [str] (header cell, record key) or an [int] (the
    positions [0, 1, ...] pandas assigns to unnamed columns). *)
Inductive label : Type :=
| LStr (s : string)
| LInt (n : Z).

(** A cell: [None], a [bool], an [int], a [float] ([CFloat FNaN] is the
    missing-value marker [nan]), a [str], or a [list]/[dict] object. *)
Inductive cell : Type :=
| CNone
| CBool (b : bool)
| CInt (n : Z)
| CFloat (f : float)
| CStr (s : string)
| CObj (v : json).

Record DataFrame : Type := mkDataFrame {
  columns : list label;
  rows : list (list cell)
}.

(** [pd.DataFrame()] *)
Definition empty_frame : DataFrame := mkDataFrame [] [].

Definition nan : cell := CFloat FNaN.

(** [pd.isna] *)
Definition isna (c : cell) : bool :=
  match c with
  | CNone | CFloat FNaN => true
  | _ => false
  end.

(** An element of [xml.etree.ElementTree]. *)
#[warnings="-register-all"]
Inductive element : Type :=
| Element (tag : string) (attrib : list (string * string))
    (text : option string) (children : list element).

(** One record of [df.to_dict(orient="records")]. *)
Definition record : Type := list (label * cell).

(** What [json.dumps] is given: the records of the only table, or the
    list of the tables' records. *)
Inductive payload : Type :=
| OneTable (records : list record)
| ManyTables (tables : list (list record)).

(** A table grid of [page.extract_tables()]: rows of cells, a cell is a
    [str] or [None]. *)
Definition grid : Type := list (list (option string)).

(** A page as pdfplumber presents it: [extract_tables()] ([None] read as
    no grid) and [extract_text()]. *)
Record page : Type := mkPage {
  extract_tables : list grid;
  extract_text : option string
}.

(** ** The libraries

    What the program calls and does not itself fix. *)
Class Library : Type := {
  (** [repr(f)] of a float that is not [nan] *)
  float_repr : float -> string;
  (** [str(v)] of a [list] or [dict] *)
  str_object : json -> string;
  (** [os.linesep], the line terminator [to_csv] writes *)
  linesep : string;
  (** the characters that make [csv.writer] quote a field under
      [QUOTE_MINIMAL]: the delimiter, the quote, the line breaks *)
  csv_special : ascii -> bool;
  (** the nesting that [json.loads] can enter, beyond [Json.least_room],
      before the interpreter raises [RecursionError] *)
  recursion_room : nat;
  (** [json.loads(line)] on [bytes]: detects the encoding, then decodes *)
  json_loads_bytes : string -> result json;
  (** [json.dumps(data, ensure_ascii=False, indent=2)] *)
  json_dumps : payload -> result string;
  (** [pd.DataFrame(data)] on nested data of no regular shape *)
  DataFrame_irregular : json -> result DataFrame;
  (** [pd.DataFrame(rows, columns=header)] and [pd.DataFrame(rows)] on
      rows of unequal or unexpected width *)
  DataFrame_ragged : option (list string) -> grid -> result DataFrame;
  (** dtype conversion of a column that holds an [int] outside the
      64-bit ranges *)
  convert_wide : list cell -> list cell;
  (** the tokenizer of [pd.read_csv]: the records of the text, each a
      list of fields, blank lines skipped *)
  csv_tokenize : string -> result (list (list string));
  (** the integer and float a field of [pd.read_csv] parses to; the
      integer is within the signed 64-bit range *)
  csv_int : string -> option Z;
  csv_float : string -> option float;
  (** the integer parser of [pd.read_csv] reports an overflow on the
      field: it starts with an integer outside the signed 64-bit range *)
  csv_overflow : string -> bool;
  (** the cells [pd.read_csv] gives a column after such an overflow:
      unsigned integers, floats, or the fields left as text, with or
      without the missing-value markers replaced *)
  csv_wide_column : list string -> list cell;
  (** [pd.read_csv] on records whose header repeats or lacks a name, or
      whose rows differ in width from the header *)
  read_csv_irregular : list (list string) -> result DataFrame;
  (** [pd.read_xml] *)
  read_xml : string -> result DataFrame;
  (** a [pd.read_xml] that raises leaves the buffer closed (it does once
      it has handed the buffer to its parser; it does not when it raises
      before, as for a parser that is not installed) *)
  read_xml_closes : string -> bool;
  (** [ET.parse(file).getroot()] *)
  ET_parse : string -> result element;
  (** [ET.tostring(root, encoding="utf-8")] *)
  ET_tostring : element -> result string;
  (** the workbook [pd.ExcelWriter(buf, engine="openpyxl")] saves, given
      the sheets written to it in order *)
  xlsx_save : list (string * DataFrame) -> result string;
  (** [pdfplumber.open(file).pages] *)
  pdfplumber_open : string -> result (list page)
}.

Section Model.
Context {L : Library}.

(** *** Building frames *)

Definition cell_of_json (v : json) : cell :=
  match v with
  | JNull => CNone
  | JBool b => CBool b
  | JInt n => CInt n
  | JFloat f => CFloat f
  | JStr s => CStr s
  | JList _ | JDict _ => CObj v
  end.

Definition to_float (c : cell) : cell :=
  match c with
  | CNone => nan
  | CInt n => CFloat (FOfInt n)
  | _ => c
  end.

Definition is_float (c : cell) : bool :=
  match c with CFloat _ => true | _ => false end.

Definition is_int (c : cell) : bool :=
  match c with CInt _ => true | _ => false end.

Definition is_none (c : cell) : bool :=
  match c with CNone => true | _ => false end.

Definition is_number_or_none (c : cell) : bool :=
  match c with
  | CNone | CInt _ | CFloat _ => true
  | _ => false
  end.

Definition wide_int (c : cell) : bool :=
  match c with
  | CInt n => negb ((- 2 ^ 63 <=? n) && (n <? 2 ^ 63))%Z
  | _ => false
  end.

(** [lib.maybe_convert_objects]: the dtype pandas gives a column of
    Python objects. A column of numbers with a missing value becomes
    [float64]: its [int]s become floats and its [None]s become [nan]; so
    does a column mixing [int] and [float]. Every other column keeps its
    cells ([int64], [bool] and [object] columns). *)
Definition maybe_convert_objects (col : list cell) : list cell :=
  if forallb is_number_or_none col then
    if existsb wide_int col then convert_wide col
    else if existsb is_float col then map to_float col
    else if existsb is_none col && existsb is_int col then map to_float col
    else col
  else col.

(** The frame with the given columns, each of [n] cells. *)
Definition frame_of_columns (n : nat) (cols : list (label * list cell))
  : DataFrame :=
  mkDataFrame (map fst cols)
    (map (fun i => map (fun col => nth i (snd col) nan) cols) (seq 0 n)).

(** The keys of the records, each once, in the order first seen. *)
Definition union_keys {V : Type} (records : list (list (string * V)))
  : list string :=
  fold_left
    (fun keys r =>
       fold_left (fun keys kv =>
                    if existsb (String.eqb (fst kv)) keys then keys
                    else keys ++ [fst kv]) r keys)
    records [].

(** [pd.DataFrame(records)] for a list of dicts: one row per record, the
    columns are the keys in the order first seen, a key a record lacks
    is [nan]. *)
Definition frame_of_records (records : list (list (string * cell)))
  : DataFrame :=
  frame_of_columns (List.length records)
    (map (fun k =>
            (LStr k,
             maybe_convert_objects
               (map (fun r => match dict_get k r with
                              | Some c => c
                              | None => nan
                              end) records)))
       (union_keys records)).

Definition is_dict (v : json) : bool :=
  match v with JDict _ => true | _ => false end.

Definition is_list (v : json) : bool :=
  match v with JList _ => true | _ => false end.

(** [pd.DataFrame(data)] for a dict [data]. Without a dict among the
    values: the list values are the columns and must have one common
    length, a scalar value is repeated down its column, and a non-empty
    dict of scalars only is refused. *)
Definition DataFrame_of_dict (data : list (string * json)) : result DataFrame :=
  if existsb (fun kv => is_dict (snd kv)) data then
    DataFrame_irregular (JDict data)
  else
    let lengths :=
      flat_map (fun kv => match snd kv with
                          | JList items => [List.length items]
                          | _ => []
                          end) data in
    match lengths with
    | [] => match data with
            | [] => Ok empty_frame
            | _ :: _ => Raise ValueError
            end
    | n :: others =>
        if forallb (Nat.eqb n) others then
          Ok (frame_of_columns n
                (map (fun kv =>
                        (LStr (fst kv),
                         match snd kv with
                         | JList items =>
                             maybe_convert_objects (map cell_of_json items)
                         | v => repeat (cell_of_json v) n
                         end)) data))
        else Raise ValueError
    end.

(** *** [pd.json_normalize] *)

(** [_normalise_json] with separator ["."]: the leaves of the nested
    dicts, keyed by their dotted paths. *)
Fixpoint _normalise_json (data : json) (key_string : string)
  (normalized_dict : list (string * json)) : list (string * json) :=
  match data with
  | JDict fields =>
      (fix items (fs : list (string * json)) (acc : list (string * json)) :=
         match fs with
         | [] => acc
         | (key, value) :: fs' =>
             let new_key :=
               if Py.truthy key_string then (key_string ++ "." ++ key)%string
               else key in
             items fs' (_normalise_json value new_key acc)
         end) fields normalized_dict
  | _ => dict_set key_string data normalized_dict
  end.

(** [_normalise_json_ordered]: the top-level leaves first, then the
    flattened nested dicts. *)
Definition _normalise_json_ordered (data : list (string * json))
  : list (string * json) :=
  let top_dict := filter (fun kv => negb (is_dict (snd kv))) data in
  let nested_dict :=
    _normalise_json (JDict (filter (fun kv => is_dict (snd kv)) data)) "" [] in
  fold_left (fun d kv => dict_set (fst kv) (snd kv) d) nested_dict top_dict.

(** [_simple_json_normalize] on one element that is not a list: a dict is
    flattened, a scalar gives the empty record. *)
Definition _simple_json_normalize (ds : json) : list (string * cell) :=
  match ds with
  | JDict fields =>
      map (fun kv => (fst kv, cell_of_json (snd kv)))
        (_normalise_json_ordered fields)
  | _ => []
  end.

(** [pd.json_normalize(data)] *)
Definition json_normalize (data : json) : result DataFrame :=
  match data with
  | JList [] => Ok empty_frame
  | JList items =>
      if existsb is_list items then DataFrame_irregular data
      else Ok (frame_of_records (map _simple_json_normalize items))
  | JDict _ => Ok (frame_of_records [_simple_json_normalize data])
  | _ => Raise LibraryError
  end.

(** *** [_read_json] *)

(** [str(data)] for a scalar. *)
Definition str_float (f : float) : string :=
  match f with
  | FNaN => "nan"
  | _ => float_repr f
  end.

Definition py_str (data : json) : string :=
  match data with
  | JNull => "None"
  | JBool b => Py.str_of_bool b
  | JInt n => Py.str_of_Z n
  | JFloat f => str_float f
  | JStr s => s
  | JList _ | JDict _ => str_object data
  end.

(** [json.loads(raw.decode("utf-8"))] *)
Definition loads_document (raw : string) : result json :=
  text <- Bytes.decode_utf8 raw ;;
  Json.decode (Json.least_room + recursion_room) text.

(** The JSONL loop: every line that parses, in order. *)
Definition loads_lines (raw : string) : list json :=
  flat_map (fun line => match json_loads_bytes line with
                        | Ok v => [v]
                        | Raise _ => []
                        end) (Bytes.readlines raw).

(** The value of [data] after the first [try]. *)
Definition load_data (raw : string) : json :=
  match loads_document raw with
  | Ok data => data
  | Raise _ => JList (loads_lines raw)
  end.

Definition _read_json (raw : string) : result (list DataFrame) :=
  let data := load_data raw in
  df <- match data with
        | JList _ => json_normalize data
        | JDict fields =>
            try_except (DataFrame_of_dict fields) (json_normalize data)
        | _ => DataFrame_of_dict [("value", JList [JStr (py_str data)])]
        end ;;
  Ok [df].


(** *** [_read_csv] *)

(** The fields [pd.read_csv] reads as missing. *)
Definition STR_NA_VALUES : list string :=
  [""; "#N/A"; "#N/A N/A"; "#NA"; "-1.#IND"; "-1.#QNAN"; "-NaN"; "-nan";
   "1.#IND"; "1.#QNAN"; "<NA>"; "N/A"; "NA"; "NULL"; "NaN"; "None"; "n/a";
   "nan"; "null"].

Definition csv_na (field : string) : bool :=
  existsb (String.eqb field) STR_NA_VALUES.

(** The boolean a field parses to: the words true and false, compared
    without regard to the case of their letters ([strcasecmp] in
    pandas' tokenizer). *)
Definition csv_bool (field : string) : option bool :=
  if String.eqb (Py.lower field) "true" then Some true
  else if String.eqb (Py.lower field) "false" then Some false
  else None.

Definition is_some {A : Type} (o : option A) : bool :=
  match o with Some _ => true | None => false end.


(** An [int64] cell after the conversion to [float64] that a missing
    field forces on its column. pandas marks the missing places of the
    integer array with the least 64-bit integer and turns every place
    that holds this integer into [nan]: a field that parses to it is
    lost with them. *)
Definition upcast_int (n : Z) : cell :=
  if (n =? - 2 ^ 63)%Z then nan else CFloat (FOfInt n).

(** The cells of one column. pandas tries [int64], [float64], [bool] and
    [object] in this order; a dtype fits when every field that is not
    missing parses; missing fields turn an integer column into floats
    and a boolean column into objects. When the integer parser reports
    an overflow on a field that is not missing, pandas leaves this
    order (it tries [uint64], and may keep the column as text without
    looking for missing values): the column is then what
    [csv_wide_column] makes of it. (The inference is over the whole
    column, as pandas does for an input that fits one parsing chunk.) *)
Definition infer_csv_column (fields : list string) : list cell :=
  let present := filter (fun f => negb (csv_na f)) fields in
  let missing := existsb csv_na fields in
  let convert (value : string -> cell) :=
    map (fun f => if csv_na f then nan else value f) fields in
  if existsb csv_overflow present then csv_wide_column fields
  else if forallb (fun f => is_some (csv_int f)) present then
    convert (fun f => match csv_int f with
                      | Some n => if missing then upcast_int n else CInt n
                      | None => nan
                      end)
  else if forallb (fun f => is_some (csv_float f)) present then
    convert (fun f => match csv_float f with
                      | Some x => CFloat x
                      | None => nan
                      end)
  else if forallb (fun f => is_some (csv_bool f)) present then
    convert (fun f => match csv_bool f with
                      | Some b => CBool b
                      | None => nan
                      end)
  else convert CStr.


Fixpoint distinct (names : list string) : bool :=
  match names with
  | [] => true
  | n :: ns => negb (existsb (String.eqb n) ns) && distinct ns
  end.

(** A header of distinct, non-empty names over rows of the header's
    width. *)
Definition regular_csv (header : list string) (body : list (list string))
  : bool :=
  Py.nonempty header && distinct header && forallb Py.truthy header
  && forallb (fun r => Nat.eqb (List.length r) (List.length header)) body.

(** [pd.read_csv(file)]: the first record is the header, the others are
    the rows, each column is converted on its own. *)
Definition pd_read_csv (raw : string) : result DataFrame :=
  records <- csv_tokenize raw ;;
  match records with
  | [] => Raise EmptyDataError
  | header :: body =>
      if regular_csv header body then
        Ok (frame_of_columns (List.length body)
              (map (fun j =>
                      (LStr (nth j header ""),
                       infer_csv_column (map (fun r => nth j r "") body)))
                 (seq 0 (List.length header))))
      else read_csv_irregular records
  end.

Definition _read_csv (raw : string) : result (list DataFrame) :=
  df <- pd_read_csv raw ;;
  Ok [df].

(** *** [_read_xml] *)

Definition tag_of (e : element) : string :=
  match e with Element tag _ _ _ => tag end.

Definition attrib_of (e : element) : list (string * string) :=
  match e with Element _ attrib _ _ => attrib end.

Definition text_of (e : element) : option string :=
  match e with Element _ _ text _ => text end.

Definition children_of (e : element) : list element :=
  match e with Element _ _ _ children => children end.

(** [root.iter()]: the element, then its descendants, in document
    order. *)
Fixpoint iter (e : element) : list element :=
  match e with
  | Element _ _ _ children =>
      e :: (fix subtrees (l : list element) : list element :=
              match l with
              | [] => []
              | c :: l' => iter c ++ subtrees l'
              end) children
  end.

(** [(e.text or "").strip()] *)
Definition stripped_text (e : element) : string :=
  Py.strip (match text_of e with
            | Some t => t
            | None => ""
            end).

(** [len(list(child)) and all(len(list(c)) == 0 for c in child)] *)
Definition leaf_parent (child : element) : bool :=
  Py.nonempty (children_of child)
  && forallb (fun c => negb (Py.nonempty (children_of c)))
       (children_of child).

(** [{k.tag: (k.text or "").strip() for k in child}] *)
Definition leaf_row (child : element) : list (string * string) :=
  dict_of_pairs (map (fun k => (tag_of k, stripped_text k)) (children_of child)).

(** The rows the loop over [root.iter()] collects. *)
Definition leaf_rows (root : element) : list (list (string * string)) :=
  map leaf_row (filter leaf_parent (iter root)).

(** [pd.DataFrame(records, columns=names)] for a list of dicts. *)
Definition frame_of_records_columns (records : list (list (string * cell)))
  (names : list string) : DataFrame :=
  frame_of_columns (List.length records)
    (map (fun k =>
            (LStr k,
             maybe_convert_objects
               (map (fun r => match dict_get k r with
                              | Some c => c
                              | None => nan
                              end) records)))
       names).

Definition str_cells (row : list (string * string)) : list (string * cell) :=
  map (fun kv => (fst kv, CStr (snd kv))) row.

(** [{"tag": elem.tag, "text": ..., **elem.attrib}] *)
Definition flat_row (elem : element) : list (string * string) :=
  fold_left (fun d kv => dict_set (fst kv) (snd kv) d) (attrib_of elem)
    [("tag", tag_of elem); ("text", stripped_text elem)].

(** The [except] branch of [_read_xml], from the parsed root on. *)
Definition xml_fallback (root : element) : DataFrame :=
  let rows := leaf_rows root in
  match rows with
  | _ :: _ =>
      frame_of_records_columns (map str_cells rows)
        (Py.sorted_set (flat_map (Dict.keys (V:=string)) rows))
  | [] => frame_of_records (map (fun e => str_cells (flat_row e)) (iter root))
  end.

(** The [try] is [pd.read_xml(file)]. The [except] branch starts with
    [file.seek(0)], which raises [ValueError] on a buffer that
    [pd.read_xml] has left closed; the tree is parsed only from a buffer
    that is still open. *)
Definition _read_xml (raw : string) : result (list DataFrame) :=
  try_except
    (df <- read_xml raw ;; Ok [df])
    (if read_xml_closes raw then Raise ValueError
     else root <- ET_parse raw ;; Ok [xml_fallback root]).

(** *** [_read_pdf] *)

(** [b.decode("latin-1", errors="ignore")]: every byte is the code point
    of that number. *)
Definition decode_latin1 (raw : string) : string :=
  Py.text (flat_map (fun c => utf8_encode (Py.code c)) (Py.chars raw)).

(** [b[:n]] *)
Definition take_bytes (n : nat) (raw : string) : string :=
  Py.text (firstn n (Py.chars raw)).

Definition cell_of_grid (x : option string) : cell :=
  match x with
  | Some s => CStr s
  | None => CNone
  end.

Definition width_is (w : nat) (rows : grid) : bool :=
  forallb (fun r => Nat.eqb (List.length r) w) rows.

(** The frame of one extracted grid [t], which is not empty. *)
Definition frame_of_grid (t0 : list (option string)) (rest : grid)
  : result DataFrame :=
  if forallb is_some t0 then
    (* all(isinstance(x, str) for x in t[0]) *)
    let header := flat_map (fun x => match x with
                                     | Some s => [s]
                                     | None => []
                                     end) t0 in
    if Py.nonempty t0 && width_is (List.length t0) rest then
      Ok (mkDataFrame (map LStr header) (map (map cell_of_grid) rest))
    else DataFrame_ragged (Some header) rest
  else
    if width_is (List.length t0) rest then
      Ok (mkDataFrame (map (fun j => LInt (Z.of_nat j)) (seq 0 (List.length t0)))
            (map (map cell_of_grid) (t0 :: rest)))
    else DataFrame_ragged None (t0 :: rest).

(** The frames of the grids of the given pages, in order; an empty grid
    is skipped. *)
Fixpoint frames_of_grids (tables : list grid) : result (list DataFrame) :=
  match tables with
  | [] => Ok []
  | [] :: tables' => frames_of_grids tables'
  | (t0 :: rest) :: tables' =>
      df <- frame_of_grid t0 rest ;;
      dfs <- frames_of_grids tables' ;;
      Ok (df :: dfs)
  end.

Definition page_text (p : page) : json :=
  JStr (match extract_text p with
        | Some t => t
        | None => ""
        end).

Definition _read_pdf (HAS_PDF : bool) (raw : string) : result (list DataFrame) :=
  if negb HAS_PDF then
    df <- DataFrame_of_dict
            [("text", JList [JStr (decode_latin1 (take_bytes 2000 raw))])] ;;
    Ok [df]
  else
    pages <- pdfplumber_open raw ;;
    dfs <- frames_of_grids (flat_map extract_tables (firstn 5 pages)) ;;
    match dfs with
    | [] =>
        pages' <- pdfplumber_open raw ;;
        df <- DataFrame_of_dict
                [("text", JList (map page_text (firstn 3 pages')))] ;;
        Ok [df]
    | _ :: _ => Ok dfs
    end.

(** *** [df_to_bytes] *)

Definition label_eqb (a b : label) : bool :=
  match a, b with
  | LStr s, LStr t => String.eqb s t
  | LInt n, LInt m => Z.eqb n m
  | _, _ => false
  end.

Definition str_label (k : label) : string :=
  match k with
  | LStr s => s
  | LInt n => Py.str_of_Z n
  end.

(** [str(v)] for a cell. *)
Definition str_cell (v : cell) : string :=
  match v with
  | CNone => "None"
  | CBool b => Py.str_of_bool b
  | CInt n => Py.str_of_Z n
  | CFloat f => str_float f
  | CStr s => s
  | CObj o => str_object o
  end.

(** The text [to_csv] writes for a cell: a missing value is written as
    the empty field ([na_rep=""]). *)
Definition csv_text (v : cell) : string :=
  if isna v then "" else str_cell v.

(** A field as [csv.writer] writes it: as it is, or between quotes with
    the quotes inside doubled. *)
Definition csv_field (field : string) : string :=
  if existsb csv_special (Py.chars field) then
    Py.text ("034"%char
               :: flat_map (fun c => if Ascii.eqb c "034" then [c; c] else [c])
                    (Py.chars field) ++ ["034"%char])
  else field.

(** [writer.writerow(fields)]: a record of one empty field is written
    as a pair of quotes. *)
Definition writerow (fields : list string) : string :=
  match fields with
  | [""] => String "034" (String "034" linesep)
  | _ => Py.join "," (map csv_field fields) ++ linesep
  end.

(** [df.to_csv(buf, index=False)]: the header, then the rows. *)
Definition to_csv (df : DataFrame) : string :=
  writerow (map str_label (columns df))
  ++ Py.cat (map (fun r => writerow (map csv_text r)) (rows df)).

(** [df.to_dict(orient="records")]: one record per row, made of the
    pairs of a column label and the row's cell; a column label that
    occurs twice keeps its first place and its last value. The rows are
    read column-wise ([zip] of the columns), so a frame without columns
    gives no record, whatever the number of its rows. *)
Definition to_dict_records (df : DataFrame) : list record :=
  match columns df with
  | [] => []
  | _ :: _ =>
      map (fun r => Dict.of_pairs label_eqb (combine (columns df) r)) (rows df)
  end.

(** [f"Sheet{i}"] *)
Definition sheet_name (i : nat) : string :=
  "Sheet" ++ Py.str_of_Z (Z.of_nat i).

(** [enumerate(dfs, start=1)] with the sheet names. *)
Definition named_sheets (dfs : list DataFrame) : list (string * DataFrame) :=
  combine (map sheet_name (seq 1 (List.length dfs))) dfs.

(** [tag = k if isinstance(k, str) and k.strip() else "field"] *)
Definition xml_tag (k : label) : string :=
  match k with
  | LStr s => if Py.truthy (Py.strip s) then s else "field"
  | LInt _ => "field"
  end.

(** [cell.text = "" if v is None else str(v)] *)
Definition xml_text (v : cell) : string :=
  match v with
  | CNone => ""
  | _ => str_cell v
  end.

Definition xml_cell (kv : label * cell) : element :=
  Element (xml_tag (fst kv)) [] (Some (xml_text (snd kv))) [].

Definition xml_row (row : record) : element :=
  Element "row" [] None (map xml_cell row).

Definition xml_sheet (named : string * DataFrame) : element :=
  Element "sheet" [("name", fst named)] None
    (map xml_row (to_dict_records (snd named))).

(** The tree the [xml] branch builds. *)
Definition xml_dataset (dfs : list DataFrame) : element :=
  Element "dataset" [] None (map xml_sheet (named_sheets dfs)).

Definition df_to_bytes (dfs : list DataFrame) (output : string)
  : result (string * string) :=
  let output := Py.lower output in
  if String.eqb output "csv" then
    match dfs with
    | [] => Raise IndexError
    | df :: _ => Ok (to_csv df, "text/csv")
    end
  else if Py.startswith output "excel" then
    buf <- xlsx_save (named_sheets dfs) ;;
    Ok (buf,
        "application/vnd.openxmlformats-officedocument.spreadsheetml.sheet")
  else if String.eqb output "json" then
    let data := map to_dict_records dfs in
    payload <- json_dumps (match data with
                           | [records] => OneTable records
                           | _ => ManyTables data
                           end) ;;
    Ok (payload, "application/json")
  else if String.eqb output "xml" then
    xml_bytes <- ET_tostring (xml_dataset dfs) ;;
    Ok (xml_bytes, "application/xml")
  else Raise ValueError.

End Model.

(** ** A reference instance of the libraries

    Simple stand-ins, used to run the model on inputs on which the
    libraries' behaviour is plain: ASCII text, small integers, unquoted
    comma-separated fields. *)

Module Reference.

Fixpoint split_on (sep : N) (cur : list ascii) (l : list ascii)
  : list (list ascii) :=
  match l with
  | [] => [rev cur]
  | c :: r =>
      if (Py.code c =? sep)%N then rev cur :: split_on sep [] r
      else split_on sep (c :: cur) r
  end.

(** Lines at line feeds, blank lines dropped, fields at commas. *)
Definition tokenize (raw : string) : result (list (list string)) :=
  Ok (map (fun line => map Py.text (split_on 44 [] line))
        (filter Py.nonempty (split_on 10 [] (Py.chars raw)))).

(** The nesting the stand-in for [json.loads] enters. *)
Definition room : nat := 900.

(** An optional sign and decimal digits. *)
Definition int_of_field (field : string) : option Z :=
  let (neg, ds) := match Py.chars field with
                   | "-"%char :: ds => (true, ds)
                   | "+"%char :: ds => (false, ds)
                   | ds => (false, ds)
                   end in
  if Py.nonempty ds && forallb (fun c => is_some (digit_value c)) ds
  then Some (if neg then - Z_of_digits ds else Z_of_digits ds)%Z
  else None.

Definition int64 (n : Z) : bool := ((- 2 ^ 63 <=? n) && (n <? 2 ^ 63))%Z.

Definition int64_of_field (field : string) : option Z :=
  match int_of_field field with
  | Some n => if int64 n then Some n else None
  | None => None
  end.

Definition overflow (field : string) : bool :=
  match int_of_field field with
  | Some n => negb (int64 n)
  | None => false
  end.

Definition repr (f : float) : string :=
  match f with
  | FNaN => "nan"
  | FOfInt n => Py.str_of_Z n ++ ".0"
  | FOfText lexeme => lexeme
  end.

Definition special (c : ascii) : bool :=
  match Py.code c with
  | (44 | 34 | 10 | 13)%N => true
  | _ => false
  end.

(** A document of text pages without grids, the pages separated by form
    feeds. *)
Definition pages (raw : string) : result (list page) :=
  Ok (map (fun t => mkPage [] (Some (Py.text t)))
        (split_on 12 [] (Py.chars raw))).

End Reference.

Definition reference_library : Library := {|
  float_repr := Reference.repr;
  str_object := fun _ => "[...]";
  linesep := String (ascii_of_N 10) "";
  csv_special := Reference.special;
  recursion_room := Reference.room;
  json_loads_bytes :=
    fun line => text <- Bytes.decode_utf8 line ;; Json.decode Reference.room text;
  json_dumps := fun _ => Raise LibraryError;
  DataFrame_irregular := fun _ => Raise ValueError;
  DataFrame_ragged := fun _ _ => Raise ValueError;
  convert_wide := fun col => col;
  csv_tokenize := Reference.tokenize;
  csv_int := Reference.int64_of_field;
  csv_float := fun field => option_map FOfInt (Reference.int_of_field field);
  csv_overflow := Reference.overflow;
  csv_wide_column := map (fun f => if csv_na f then nan else CStr f);
  read_csv_irregular := fun _ => Raise ParserError;
  read_xml := fun _ => Raise XMLParseError;
  read_xml_closes := fun _ => false;
  ET_parse := fun _ => Raise XMLParseError;
  ET_tostring := fun _ => Raise LibraryError;
  xlsx_save := fun _ => Raise LibraryError;
  pdfplumber_open := Reference.pages
|}.

(** ** What the claims speak of *)


(** A parsed value that is neither a sequence nor a record. *)
Definition is_scalar (v : json) : bool :=
  negb (is_list v) && negb (is_dict v).

(** The one-row, one-column frame of the textual fallback. *)
Definition value_frame (s : string) : DataFrame :=
  mkDataFrame [LStr "value"] [[CStr s]].

(** No grid of the page has a row. *)
Definition no_grid (p : page) : bool :=
  forallb (fun t : grid => negb (Py.nonempty t)) (extract_tables p).

(** [page.extract_text() or ""] *)
Definition text_or_empty (p : page) : string :=
  match extract_text p with
  | Some t => t
  | None => ""
  end.

(** The text neither starts nor ends with a white-space character. *)
Definition trimmed (s : string) : Prop :=
  Py.space_width (map Py.code (Py.chars s)) = 0
  /\ Py.space_width_rev (rev (map Py.code (Py.chars s))) = 0.


(** One step of [dict(pairs)]. *)
Definition assign {V : Type} (d : list (string * V)) (kv : string * V) :=
  dict_set (fst kv) (snd kv) d.


(** A line feed, and the lines of a text. *)
Definition LF : string := String "010" "".

Definition unlines (lines : list string) : string :=
  Py.cat (map (fun l => l ++ LF)%string lines).


(** The columns that decoding and encoding again write as they were
    read. *)
Section Columns.
Context {L : Library}.






End Columns.

(** ** The rest of the program: [_read_excel], [read_file] and the
    names the upload loop derives *)

(** What [_read_excel] calls: [pd.ExcelFile(file).sheet_names] and
    [xls.parse(sheet_name)]. *)
Class ExcelLibrary : Type := {
  excel_sheet_names : string -> result (list string);
  excel_parse : string -> string -> result DataFrame
}.

(** A list comprehension over calls that may raise: the first exception
    ends it. *)
Fixpoint map_result {A B : Type} (f : A -> result B) (l : list A)
  : result (list B) :=
  match l with
  | [] => Ok []
  | a :: l' =>
      b <- f a ;;
      bs <- map_result f l' ;;
      Ok (b :: bs)
  end.

(** [s.split(sep)] for a separator of one character. *)
Fixpoint split (sep : ascii) (s : string) : list string :=
  match s with
  | EmptyString => [""]
  | String c r =>
      if Ascii.eqb c sep then "" :: split sep r
      else match split sep r with
           | seg :: segs => String c seg :: segs
           | [] => [String c ""]
           end
  end.

Definition dot : ascii := "046".

(** [suffix = "." + up.name.split(".")[-1].lower()] *)
Definition suffix_of (name : string) : string :=
  ("." ++ Py.lower (last (split dot name) ""))%string.

(** [default_name = up.name.rsplit(".", 1)[0]] *)
Definition default_name (name : string) : string :=
  match split dot name with
  | [_] => name
  | parts => Py.join "." (removelast parts)
  end.

Definition SUPPORTED_INPUTS : list string :=
  [".csv"; ".xlsx"; ".xls"; ".json"; ".xml"; ".pdf"].

Definition SUPPORTED_OUTPUTS : list string :=
  ["CSV"; "Excel (.xlsx)"; "JSON"; "XML"].

(** [ext = "csv" if out_fmt == "CSV" else ("xlsx" if
    out_fmt.startswith("Excel") else ("json" if out_fmt == "JSON" else
    "xml"))] *)
Definition ext_of (out_fmt : string) : string :=
  if String.eqb out_fmt "CSV" then "csv"
  else if Py.startswith out_fmt "Excel" then "xlsx"
  else if String.eqb out_fmt "JSON" then "json"
  else "xml".

Section Program.
Context {L : Library} {X : ExcelLibrary}.

Definition _read_excel (raw : string) : result (list DataFrame) :=
  names <- excel_sheet_names raw ;;
  map_result (excel_parse raw) names.

Definition read_file (HAS_PDF : bool) (raw : string) (suffix : string)
  : result (list DataFrame) :=
  let suffix := Py.lower suffix in
  if String.eqb suffix ".csv" then _read_csv raw
  else if (String.eqb suffix ".xlsx" || String.eqb suffix ".xls")%bool
  then _read_excel raw
  else if String.eqb suffix ".json" then _read_json raw
  else if String.eqb suffix ".xml" then _read_xml raw
  else if String.eqb suffix ".pdf" then _read_pdf HAS_PDF raw
  else Raise ValueError.

End Program.

(** A stand-in for the workbook reader: two sheets, each an empty table
    with one column that bears the sheet's name. *)
Definition reference_excel : ExcelLibrary := {|
  excel_sheet_names := fun _ => Ok ["first"; "second"];
  excel_parse := fun _ name => Ok (mkDataFrame [LStr name] [])
|}.

(** The reference libraries, with a document that has the given
    pages. *)
Definition with_pages (pages : list page) : Library := {|
  float_repr := @float_repr reference_library;
  str_object := @str_object reference_library;
  linesep := @linesep reference_library;
  csv_special := @csv_special reference_library;
  recursion_room := @recursion_room reference_library;
  json_loads_bytes := @json_loads_bytes reference_library;
  json_dumps := @json_dumps reference_library;
  DataFrame_irregular := @DataFrame_irregular reference_library;
  DataFrame_ragged := @DataFrame_ragged reference_library;
  convert_wide := @convert_wide reference_library;
  csv_tokenize := @csv_tokenize reference_library;
  csv_int := @csv_int reference_library;
  csv_float := @csv_float reference_library;
  csv_overflow := @csv_overflow reference_library;
  csv_wide_column := @csv_wide_column reference_library;
  read_csv_irregular := @read_csv_irregular reference_library;
  read_xml := @read_xml reference_library;
  read_xml_closes := @read_xml_closes reference_library;
  ET_parse := @ET_parse reference_library;
  ET_tostring := @ET_tostring reference_library;
  xlsx_save := @xlsx_save reference_library;
  pdfplumber_open := fun _ => Ok pages
|}.

(** The cell at a row and a column of the table read from markup. *)
Definition cell_of_row (row : list (string * string)) (k : string) : cell :=
  match dict_get k row with
  | Some v => CStr v
  | None => nan
  end.

(** Strictly ascending in code-point order. *)
Fixpoint ascending (l : list string) : Prop :=
  match l with
  | [] => True
  | k :: l' =>
      (forall k', In k' l' -> String.compare k k' = Lt) /\ ascending l'
  end.

(** The height of an element tree. *)
Fixpoint height (e : element) : nat :=
  match e with
  | Element _ _ _ children =>
      S ((fix heights (l : list element) : nat :=
            match l with
            | [] => 0
            | c :: l' => Nat.max (height c) (heights l')
            end) children)
  end.

(** Every row of the frame has one cell per column. *)
Definition rectangular (df : DataFrame) : Prop :=
  forall row, In row (rows df) -> List.length row = List.length (columns df).

(** * Theorems *)

(** ** Lists and dicts *)

Section General.

Lemma chars_length (s : string) : List.length (Py.chars s) = String.length s.
Proof. induction s as [| c s IH]; simpl; [reflexivity | now rewrite IH]. Qed.

Lemma map_nth_seq {A B : Type} (g : A -> B) (d : A) (l : list A) :
  map (fun i => g (nth i l d)) (seq 0 (List.length l)) = map g l.
Proof.
  induction l as [| a l IH]; simpl.
  - reflexivity.
  - f_equal. rewrite <- seq_shift, map_map. exact IH.
Qed.


Lemma nth_map_in {A B : Type} (g : A -> B) (l : list A) (i : nat) (d : A) (e : B) :
  i < List.length l -> nth i (map g l) e = g (nth i l d).
Proof.
  intros Hi. rewrite (nth_indep (map g l) e (g d)) by now rewrite length_map.
  apply map_nth.
Qed.

Lemma dict_get_set_same {V : Type} (k : string) (v : V) (d : list (string * V)) :
  dict_get k (dict_set k v d) = Some v.
Proof.
  unfold dict_get, dict_set.
  induction d as [| [k' v'] d IH]; simpl.
  - now rewrite String.eqb_refl.
  - destruct (String.eqb k k') eqn:E; simpl.
    + now rewrite String.eqb_refl.
    + now rewrite E.
Qed.

Lemma dict_get_set_other {V : Type} (k k' : string) (v : V) (d : list (string * V)) :
  k <> k' -> dict_get k (dict_set k' v d) = dict_get k d.
Proof.
  unfold dict_get, dict_set. intros Hne.
  apply String.eqb_neq in Hne.
  induction d as [| [k0 v0] d IH]; simpl.
  - now rewrite Hne.
  - destruct (String.eqb k' k0) eqn:E; simpl.
    + apply String.eqb_eq in E. subst k0. now rewrite Hne.
    + now rewrite IH.
Qed.

Lemma dict_set_keys_in {V : Type} (k x : string) (v : V) (d : list (string * V)) :
  In x (Dict.keys (dict_set k v d)) -> x = k \/ In x (Dict.keys d).
Proof.
  unfold Dict.keys, dict_set.
  induction d as [| [k0 v0] d IH]; simpl.
  - intros [<- | []]. now left.
  - destruct (String.eqb k k0) eqn:E; simpl.
    + intros [<- | H]; [now left | now right; right].
    + intros [<- | H]; [now right; left |].
      destruct (IH H) as [-> | H']; [now left | now right; right].
Qed.

Lemma dict_set_nodup {V : Type} (k : string) (v : V) (d : list (string * V)) :
  NoDup (Dict.keys d) -> NoDup (Dict.keys (dict_set k v d)).
Proof.
  unfold Dict.keys, dict_set.
  induction d as [| [k0 v0] d IH]; simpl; intros Hnd.
  - constructor; [intros [] | constructor].
  - inversion Hnd as [| ? ? Hnotin Hnd']; subst.
    destruct (String.eqb k k0) eqn:E; simpl.
    + apply String.eqb_eq in E. subst k0. now constructor.
    + constructor; [| now apply IH].
      intros Hin. apply (dict_set_keys_in k k0 v d) in Hin.
      destruct Hin as [-> | Hin]; [| now apply Hnotin].
      now rewrite String.eqb_refl in E.
Qed.

Lemma fold_assign_nodup {V : Type} (pairs d : list (string * V)) :
  NoDup (Dict.keys d) -> NoDup (Dict.keys (fold_left assign pairs d)).
Proof.
  revert d. induction pairs as [| kv pairs IH]; intros d Hnd; simpl.
  - exact Hnd.
  - apply IH. now apply dict_set_nodup.
Qed.

Lemma fold_assign_other {V : Type} (k : string) (pairs d : list (string * V)) :
  (forall kv, In kv pairs -> fst kv <> k) ->
  dict_get k (fold_left assign pairs d) = dict_get k d.
Proof.
  revert d. induction pairs as [| kv pairs IH]; intros d Hne; simpl.
  - reflexivity.
  - rewrite IH by (intros kv' Hin; apply Hne; now right).
    unfold assign. apply dict_get_set_other.
    intros ->. now apply (Hne kv (or_introl eq_refl)).
Qed.

(** In [dict(pairs)] a key has the value of its last pair, and every key
    stands once. *)
Lemma dict_of_pairs_last {V : Type} (k : string) (v : V)
  (before after : list (string * V)) :
  (forall kv, In kv after -> fst kv <> k) ->
  dict_get k (dict_of_pairs (before ++ (k, v) :: after)) = Some v
  /\ NoDup (Dict.keys (dict_of_pairs (before ++ (k, v) :: after))).
Proof.
  intros Hafter. unfold dict_of_pairs, Dict.of_pairs.
  change (fun (d : list (string * V)) (kv : string * V) =>
            Dict.set String.eqb (fst kv) (snd kv) d) with (@assign V).
  split.
  - rewrite fold_left_app. simpl.
    rewrite fold_assign_other by exact Hafter.
    apply dict_get_set_same.
  - apply fold_assign_nodup. constructor.
Qed.

End General.


(** ** The structured-text decoder *)

Section JsonDecoder.
Context {L : Library}.








(** The limits of [json.loads]: an integer of 4300 digits is read and
    one of 4301 digits is refused with [ValueError], whole or in a
    container; a text is read as deep as there is room and refused with
    [RecursionError] one level deeper. *)
Lemma decode_limits (room : nat) :
  is_ok (Json.decode room (Py.text (repeat "1"%char 4300))) = true
  /\ Json.decode room (Py.text (repeat "1"%char 4301)) = Raise ValueError
  /\ Json.decode (S room) (Py.text ("["%char :: repeat "1"%char 4301 ++ ["]"%char]))
     = Raise ValueError
  /\ Json.decode 2 (Py.dq "[{'a':[]}]") = Raise RecursionError
  /\ Json.decode 3 (Py.dq "[{'a':[]}]") = Ok (JList [JDict [("a", JList [])]]).
Proof.
  repeat split; try (destruct room; vm_compute; reflexivity).
Qed.

(** A document that is an integer of 4301 digits does not parse as a
    whole, whatever the room for nesting. *)
Lemma loads_long_integer :
  loads_document (Py.text (repeat "1"%char 4301)) = Raise ValueError.
Proof.
  unfold loads_document.
  assert (Hutf8 : Bytes.decode_utf8 (Py.text (repeat "1"%char 4301))
                  = Ok (Py.text (repeat "1"%char 4301)))
    by (vm_compute; reflexivity).
  rewrite Hutf8. unfold bind.
  apply (proj1 (proj2 (decode_limits (Json.least_room + recursion_room)))).
Qed.


(** C7. Decoding [[{"a":1},{"a":2}]] gives one Table of two rows whose
    column "a" holds 1 and 2; decoding [{"a":[1,2],"b":[3,4]}] gives one
    Table of two rows with columns a and b, built by the table-of-arrays
    construction, which succeeds on two sequences of length 2. *)
Theorem read_json_examples :
  _read_json (Py.dq "[{'a':1},{'a':2}]")
  = Ok [mkDataFrame [LStr "a"] [[CInt 1]; [CInt 2]]]
  /\ DataFrame_of_dict [("a", JList [JInt 1; JInt 2]); ("b", JList [JInt 3; JInt 4])]
     = Ok (mkDataFrame [LStr "a"; LStr "b"] [[CInt 1; CInt 3]; [CInt 2; CInt 4]])
  /\ _read_json (Py.dq "{'a':[1,2],'b':[3,4]}")
     = Ok [mkDataFrame [LStr "a"; LStr "b"] [[CInt 1; CInt 3]; [CInt 2; CInt 4]]].
Proof. repeat split; reflexivity. Qed.

End JsonDecoder.



(** ** The encoders *)

Section Encoders.
Context {L : Library}.

Lemma isspace_strip (k : string) : Py.isspace k = true -> Py.strip k = "".
Proof.
  unfold Py.isspace, Py.strip, Py.lstrip_chars. intros H.
  apply andb_prop in H as [_ H]. rewrite chars_length.
  destruct (Py.drop_spaces Py.space_width (String.length k) (Py.chars k));
    [reflexivity | discriminate H].
Qed.

(** C10. A row key made of white space only is replaced by the
    placeholder tag "field" when its child element is created, as are
    the empty key and a key that is not a string. *)
Theorem xml_tag_blank_key (k : string) (v : cell) :
  Py.isspace k = true ->
  xml_tag (LStr k) = "field"
  /\ xml_cell (LStr k, v) = Element "field" [] (Some (xml_text v)) []
  /\ xml_tag (LStr "") = "field"
  /\ (forall n, xml_tag (LInt n) = "field").
Proof.
  intros Hspace.
  assert (Htag : xml_tag (LStr k) = "field").
  { unfold xml_tag. rewrite (isspace_strip k Hspace). reflexivity. }
  repeat split; try reflexivity; try exact Htag.
  unfold xml_cell. simpl fst. rewrite Htag. reflexivity.
Qed.

Lemma named_sheets_from (a : nat) (dfs : list DataFrame) (i : nat) (df : DataFrame) :
  nth_error dfs i = Some df ->
  nth_error (combine (map sheet_name (seq a (List.length dfs))) dfs) i
  = Some (sheet_name (a + i), df).
Proof.
  revert a i. induction dfs as [| d dfs IH]; intros a i Hi.
  - destruct i; discriminate Hi.
  - destruct i as [| i]; simpl in *.
    + injection Hi as <-. now rewrite Nat.add_0_r.
    + rewrite (IH (S a) i Hi). now rewrite Nat.add_succ_r.
Qed.

Lemma named_sheets_length (dfs : list DataFrame) :
  List.length (named_sheets dfs) = List.length dfs.
Proof.
  unfold named_sheets.
  rewrite length_combine, length_map, length_seq. apply Nat.min_id.
Qed.

Lemma excel_is_not_csv (output : string) :
  Py.startswith output "excel" = true -> String.eqb output "csv" = false.
Proof.
  intros H. destruct (String.eqb_spec output "csv") as [-> |]; [| reflexivity].
  discriminate H.
Qed.

(** C2. On a TableSet of two or more Tables the delimited-text encoder
    writes the header and the rows of the first Table and nothing that
    depends on the others; the workbook encoder hands the writer one
    sheet per Table, the i-th (from 1) named "Sheet{i}". *)
Theorem encode_two_or_more (d1 d2 : DataFrame) (others : list DataFrame)
  (csv xlsx : string) :
  Py.lower csv = "csv" ->
  Py.startswith (Py.lower xlsx) "excel" = true ->
  let dfs := d1 :: d2 :: others in
  df_to_bytes dfs csv
  = Ok ((writerow (map str_label (columns d1))
         ++ Py.cat (map (fun r => writerow (map csv_text r)) (rows d1)))%string,
        "text/csv")
  /\ (forall others', df_to_bytes (d1 :: others') csv = df_to_bytes dfs csv)
  /\ df_to_bytes dfs xlsx
     = bind (xlsx_save (named_sheets dfs))
         (fun buf =>
            Ok (buf,
                "application/vnd.openxmlformats-officedocument.spreadsheetml.sheet"))
  /\ List.length (named_sheets dfs) = List.length dfs
  /\ (forall i df, nth_error dfs i = Some df ->
                   nth_error (named_sheets dfs) i
                   = Some (("Sheet" ++ Py.str_of_Z (Z.of_nat (i + 1)))%string, df)).
Proof.
  intros Hcsv Hxlsx dfs. repeat split.
  - unfold df_to_bytes. rewrite Hcsv. reflexivity.
  - intros others'. unfold df_to_bytes. rewrite Hcsv. reflexivity.
  - unfold df_to_bytes. rewrite (excel_is_not_csv _ Hxlsx), Hxlsx. reflexivity.
  - apply named_sheets_length.
  - intros i df Hi. unfold named_sheets.
    rewrite (named_sheets_from 1 dfs i df Hi).
    unfold sheet_name. now rewrite Nat.add_comm.
Qed.

(** C4, the runs that contradict it. A JSON [null] beside a number is
    held as the missing value [nan], and so is the place of a key that a
    record lacks; a [null] beside a string is held as [None]. The
    delimited-text encoder writes both [nan] and [None] as the empty
    field. The markup encoder writes [None] as empty text, but it writes
    [nan] as the text "nan". *)
Theorem encode_missing_value :
  _read_json (Py.dq "[{'n':1},{'n':null}]")
  = Ok [mkDataFrame [LStr "n"] [[CFloat (FOfInt 1)]; [nan]]]
  /\ xml_dataset [mkDataFrame [LStr "n"] [[CFloat (FOfInt 1)]; [nan]]]
     = Element "dataset" [] None
         [Element "sheet" [("name", "Sheet1")] None
            [Element "row" [] None
               [Element "n" [] (Some (float_repr (FOfInt 1))) []];
             Element "row" [] None [Element "n" [] (Some "nan") []]]]
  /\ _read_json (Py.dq "[{'a':'x'},{'b':'y'}]")
     = Ok [mkDataFrame [LStr "a"; LStr "b"] [[CStr "x"; nan]; [nan; CStr "y"]]]
  /\ xml_dataset [mkDataFrame [LStr "a"; LStr "b"] [[CStr "x"; nan]; [nan; CStr "y"]]]
     = Element "dataset" [] None
         [Element "sheet" [("name", "Sheet1")] None
            [Element "row" [] None
               [Element "a" [] (Some "x") []; Element "b" [] (Some "nan") []];
             Element "row" [] None
               [Element "a" [] (Some "nan") []; Element "b" [] (Some "y") []]]]
  /\ _read_json (Py.dq "[{'a':'x'},{'a':null}]")
     = Ok [mkDataFrame [LStr "a"] [[CStr "x"]; [CNone]]]
  /\ xml_dataset [mkDataFrame [LStr "a"] [[CStr "x"]; [CNone]]]
     = Element "dataset" [] None
         [Element "sheet" [("name", "Sheet1")] None
            [Element "row" [] None [Element "a" [] (Some "x") []];
             Element "row" [] None [Element "a" [] (Some "") []]]]
  /\ map csv_text [nan; CNone] = [""; ""].
Proof. repeat split; reflexivity. Qed.

End Encoders.

(** C10 at the key made of a space, a tab and a no-break space. *)
Lemma xml_tag_blank_key_witness :
  xml_tag (LStr (String " " (String "009" (String "194" (String "160" "")))))
  = "field".
Proof.
  refine (proj1 (@xml_tag_blank_key reference_library
                   (String " " (String "009" (String "194" (String "160" ""))))
                   CNone _)).
  reflexivity.
Defined.

(** C2 at three one-column Tables and the tags of the caller. *)
Lemma encode_two_or_more_witness :
  @df_to_bytes reference_library
    [mkDataFrame [LStr "a"] [[CInt 1]]; mkDataFrame [LStr "b"] [[CInt 2]];
     mkDataFrame [LStr "c"] []] "CSV"
  = Ok (String "a" (String "010" (String "1" (String "010" ""))), "text/csv").
Proof.
  refine (proj1 (@encode_two_or_more reference_library
                   (mkDataFrame [LStr "a"] [[CInt 1]])
                   (mkDataFrame [LStr "b"] [[CInt 2]])
                   [mkDataFrame [LStr "c"] []] "CSV" "Excel (.xlsx)" _ _));
    reflexivity.
Defined.

(** ** The markup decoder *)

Section XmlDecoder.

(** The cases of a byte. *)
Ltac bits n := destruct n as [| n]; [| do 9 (try (destruct n as [n | n |]))].

Ltac settle H := first [exact H | discriminate H | reflexivity].

(** A white-space character at the head of a text is one at the head
    of every text that continues it. *)
Lemma space_width_prefix (x y : list N) :
  Py.space_width (x ++ y) = 0 -> Py.space_width x = 0.
Proof.
  destruct x as [| a [| b [| c x]]]; [reflexivity | | |].
  - simpl app. bits a; simpl; intros H; settle H.
  - simpl app. bits a; simpl; intros H; try settle H;
      bits b; simpl in *; settle H.
  - simpl app. intros H. exact H.
Qed.

Lemma drop_spaces_done (width : list N -> nat) (fuel : nat) (l : list ascii) :
  width [] = 0 -> List.length l <= fuel ->
  width (map Py.code (Py.drop_spaces width fuel l)) = 0.
Proof.
  intros Hnil. revert l. induction fuel as [| fuel IH]; intros l Hlen.
  - destruct l; [exact Hnil | inversion Hlen].
  - cbn [Py.drop_spaces].
    destruct (width (map Py.code l)) as [| w] eqn:E; [exact E |].
    apply IH. destruct l as [| a l]; [simpl in E; congruence |].
    cbn [skipn]. rewrite length_skipn. simpl in Hlen.
    apply le_S_n in Hlen. etransitivity; [apply Nat.le_sub_l | exact Hlen].
Qed.

Lemma drop_spaces_suffix (width : list N -> nat) (fuel : nat) (l : list ascii) :
  exists p, l = p ++ Py.drop_spaces width fuel l.
Proof.
  revert l. induction fuel as [| fuel IH]; intros l; [now exists [] |].
  cbn [Py.drop_spaces].
  destruct (width (map Py.code l)) as [| w]; [now exists [] |].
  destruct (IH (skipn (S w) l)) as (p & Hp).
  exists (firstn (S w) l ++ p).
  rewrite <- app_assoc, <- Hp. symmetry. apply firstn_skipn.
Qed.

(** [s.strip()] neither starts nor ends with white space. *)
Lemma strip_trimmed (s : string) : trimmed (Py.strip s).
Proof.
  unfold trimmed, Py.strip, Py.chars, Py.text.
  rewrite list_ascii_of_string_of_list_ascii.
  fold (Py.chars s). set (m := Py.lstrip_chars (Py.chars s)).
  assert (Hm : Py.space_width (map Py.code m) = 0).
  { apply drop_spaces_done; [reflexivity | apply le_n]. }
  unfold Py.rstrip_chars.
  destruct (drop_spaces_suffix Py.space_width_rev (List.length m) (rev m))
    as (p & Hp).
  pose proof (drop_spaces_done Py.space_width_rev (List.length m) (rev m)
                eq_refl) as Hd.
  rewrite length_rev in Hd. specialize (Hd (le_n _)).
  set (d := Py.drop_spaces Py.space_width_rev (List.length m) (rev m)) in *.
  split.
  - apply (space_width_prefix _ (map Py.code (rev p))).
    rewrite <- map_app, <- rev_app_distr, <- Hp, rev_involutive. exact Hm.
  - rewrite <- map_rev, rev_involutive. exact Hd.
Qed.

(** C9. In the leaf-parent path, a leaf-parent element with several
    children of one tag gives a row in which that tag is a single
    column, holding the text of the last of these children with the
    white space at its two ends removed; the texts of the earlier ones
    are not kept. *)
Theorem leaf_row_last_child_wins (root child k : element)
  (before after : list element) :
  In child (iter root) ->
  leaf_parent child = true ->
  children_of child = before ++ k :: after ->
  (forall k', In k' after -> tag_of k' <> tag_of k) ->
  let value := Py.strip (match text_of k with
                         | Some t => t
                         | None => ""
                         end) in
  In (leaf_row child) (leaf_rows root)
  /\ dict_get (tag_of k) (leaf_row child) = Some value
  /\ trimmed value
  /\ NoDup (Dict.keys (leaf_row child))
  /\ count_occ string_dec (Dict.keys (leaf_row child)) (tag_of k) = 1.
Proof.
  intros Hiter Hleaf Hchildren Hlast value.
  assert (Hrow : dict_get (tag_of k) (leaf_row child) = Some value
                 /\ NoDup (Dict.keys (leaf_row child))).
  { unfold leaf_row. rewrite Hchildren, map_app. simpl map.
    apply dict_of_pairs_last.
    intros kv Hin. apply in_map_iff in Hin as (k' & <- & Hk'). simpl.
    now apply Hlast. }
  destruct Hrow as [Hget Hnodup].
  split; [| split; [exact Hget | split; [apply strip_trimmed |
                                         split; [exact Hnodup |]]]].
  - unfold leaf_rows. apply in_map, filter_In. now split.
  - apply NoDup_count_occ'; [exact Hnodup |].
    clear - Hget. unfold dict_get, Dict.keys in *.
    induction (leaf_row child) as [| [k0 v0] d IH]; simpl in *.
    + discriminate Hget.
    + destruct (String.eqb (tag_of k) k0) eqn:E.
      * apply String.eqb_eq in E. now left.
      * right. now apply IH.
Qed.

End XmlDecoder.

(** C9 on [<r><p><a>x</a><b> y</b><a> z </a></p></r>], the text of
    the last [a] standing between a line feed with a tab and a no-break
    space: the row holds [z] under [a], and [y] under [b]. *)
Lemma leaf_row_last_child_wins_witness :
  let last_a := String "010" (String "009" (String "z"
                  (String "194" (String "160" "")))) in
  let p := Element "p" [] None
             [Element "a" [] (Some "x") []; Element "b" [] (Some " y") [];
              Element "a" [] (Some last_a) []] in
  leaf_row p = [("a", "z"); ("b", "y")]
  /\ dict_get "a" (leaf_row p) = Some "z"
  /\ count_occ string_dec (Dict.keys (leaf_row p)) "a" = 1.
Proof.
  intros last_a p.
  destruct (leaf_row_last_child_wins
              (Element "r" [] None [p]) p (Element "a" [] (Some last_a) [])
              [Element "a" [] (Some "x") []; Element "b" [] (Some " y") []] []
              (or_intror (or_introl eq_refl)) eq_refl eq_refl
              (fun k' (H : In k' []) => match H with end))
    as (_ & Hget & _ & _ & Hcount).
  split; [reflexivity | split; [exact Hget | exact Hcount]].
Defined.

(** ** The page-layout decoder *)

Section PdfDecoder.
Context {L : Library}.

Lemma frames_of_empty_grids (tables : list grid) :
  forallb (fun t : grid => negb (Py.nonempty t)) tables = true ->
  frames_of_grids tables = Ok [].
Proof.
  induction tables as [| t tables IH]; simpl; intros H.
  - reflexivity.
  - apply andb_prop in H as [Ht Htables].
    destruct t; [now apply IH | discriminate Ht].
Qed.

Lemma no_grid_pages (pages : list page) :
  forallb no_grid pages = true ->
  forallb (fun t : grid => negb (Py.nonempty t)) (flat_map extract_tables pages)
  = true.
Proof.
  induction pages as [| p pages IH]; simpl; intros H.
  - reflexivity.
  - apply andb_prop in H as [Hp Hpages].
    rewrite forallb_app. unfold no_grid in Hp. now rewrite Hp, IH.
Qed.

Lemma convert_text_column (texts : list string) :
  maybe_convert_objects (map CStr texts) = map CStr texts.
Proof.
  unfold maybe_convert_objects. destruct texts; reflexivity.
Qed.

(** [pd.DataFrame({name: texts})] for a list of strings: one column, one
    row per string. *)
Lemma DataFrame_of_text_column (name : string) (texts : list string) :
  DataFrame_of_dict [(name, JList (map JStr texts))]
  = Ok (mkDataFrame [LStr name] (map (fun t => [CStr t]) texts)).
Proof.
  unfold DataFrame_of_dict. simpl.
  rewrite map_map. simpl.
  change (map (fun x : string => CStr x) texts) with (map CStr texts).
  rewrite convert_text_column.
  unfold frame_of_columns. simpl. f_equal. f_equal.
  rewrite length_map.
  rewrite <- (length_map CStr texts) at 1.
  rewrite (map_nth_seq (fun c => [c]) nan (map CStr texts)).
  now rewrite map_map.
Qed.

(** C6 (as amended). When the extractor is present and no grid with a
    row is extracted from the first five pages, the decoder returns
    exactly one Table: its single column "text" holds, one row per page,
    the plain text of each of the first three pages (the empty string
    where extraction yields none). *)
Theorem read_pdf_text_fallback (raw : string) (pages : list page) :
  pdfplumber_open raw = Ok pages ->
  forallb no_grid (firstn 5 pages) = true ->
  _read_pdf true raw
  = Ok [mkDataFrame [LStr "text"]
          (map (fun p => [CStr (text_or_empty p)]) (firstn 3 pages))].
Proof.
  intros Hopen Hnone. unfold _read_pdf. simpl negb. cbv iota.
  rewrite Hopen. unfold bind at 1.
  rewrite (frames_of_empty_grids _ (no_grid_pages _ Hnone)). unfold bind at 1.
  unfold bind at 1.
  assert (Htexts : map page_text (firstn 3 pages)
                   = map JStr (map text_or_empty (firstn 3 pages))).
  { rewrite map_map. reflexivity. }
  rewrite Htexts, DataFrame_of_text_column. unfold bind.
  now rewrite map_map.
Qed.

End PdfDecoder.

(** C6 at a document of two pages: one Table of two rows. *)
Lemma read_pdf_text_fallback_witness :
  @_read_pdf reference_library true (String "x" (String "012" "y"))
  = Ok [mkDataFrame [LStr "text"] [[CStr "x"]; [CStr "y"]]].
Proof.
  apply (@read_pdf_text_fallback reference_library
           (String "x" (String "012" "y"))
           [mkPage [] (Some "x"); mkPage [] (Some "y")]);
    reflexivity.
Defined.

(** C6 as stated fails on a document of two pages without grids: two
    pages are scanned, and one Table is returned, not two. *)
Lemma read_pdf_two_pages_one_table :
  exists pages dfs,
    @pdfplumber_open reference_library (String "x" (String "012" "y")) = Ok pages
    /\ List.length pages = 2
    /\ forallb no_grid pages = true
    /\ @_read_pdf reference_library true (String "x" (String "012" "y")) = Ok dfs
    /\ List.length dfs = 1
    /\ List.length dfs <> List.length pages.
Proof.
  exists [mkPage [] (Some "x"); mkPage [] (Some "y")].
  exists [mkDataFrame [LStr "text"] [[CStr "x"]; [CStr "y"]]].
  repeat split; try reflexivity. discriminate.
Qed.

(** ** The delimited-text decoder and the round trip *)

Section CsvRoundTrip.
Context {L : Library}.


Lemma present_in (fields : list string) (f : string) :
  In f (filter (fun f => negb (csv_na f)) fields)
  <-> In f fields /\ csv_na f = false.
Proof. rewrite filter_In, negb_true_iff. reflexivity. Qed.

Lemma no_overflow_present (fields : list string) :
  (forall f, In f fields -> csv_na f = false -> csv_overflow f = false) ->
  existsb csv_overflow (filter (fun f => negb (csv_na f)) fields) = false.
Proof.
  intros Hnone.
  destruct (existsb _ _) eqn:E; [| reflexivity].
  apply existsb_exists in E as (f & Hf & Hover).
  apply present_in in Hf as [Hf Hna].
  rewrite (Hnone f Hf Hna) in Hover. discriminate Hover.
Qed.


























End CsvRoundTrip.





(** * Further properties of the program *)

(** ** File names and dispatch *)

Section Dispatch.
Context {L : Library} {X : ExcelLibrary}.

Lemma lower_char_idem (c : ascii) :
  Py.lower_char (Py.lower_char c) = Py.lower_char c.
Proof. destruct c as [[] [] [] [] [] [] [] []]; reflexivity. Qed.

Lemma chars_text (l : list ascii) : Py.chars (Py.text l) = l.
Proof. apply list_ascii_of_string_of_list_ascii. Qed.

Lemma text_chars (s : string) : Py.text (Py.chars s) = s.
Proof. apply string_of_list_ascii_of_string. Qed.

Lemma lower_idem (s : string) : Py.lower (Py.lower s) = Py.lower s.
Proof.
  unfold Py.lower. rewrite chars_text, map_map. f_equal.
  apply map_ext. intros c. apply lower_char_idem.
Qed.

Lemma lower_cons (c : ascii) (s : string) :
  Py.lower (String c s) = String (Py.lower_char c) (Py.lower s).
Proof. reflexivity. Qed.

Lemma read_file_lower (HAS_PDF : bool) (raw suffix : string) :
  read_file HAS_PDF raw suffix = read_file HAS_PDF raw (Py.lower suffix).
Proof. unfold read_file. now rewrite lower_idem. Qed.

(** X1. The decoder is chosen by the suffix without regard to case, and
    a suffix outside the six supported ones is refused with
    [ValueError], whatever the content. *)
Theorem read_file_dispatch (HAS_PDF : bool) (raw suffix : string) :
  read_file HAS_PDF raw suffix = read_file HAS_PDF raw (Py.lower suffix)
  /\ (existsb (String.eqb (Py.lower suffix)) SUPPORTED_INPUTS = false ->
      read_file HAS_PDF raw suffix = Raise ValueError)
  /\ (Py.lower suffix = ".csv" -> read_file HAS_PDF raw suffix = _read_csv raw)
  /\ (Py.lower suffix = ".xlsx" \/ Py.lower suffix = ".xls" ->
      read_file HAS_PDF raw suffix = _read_excel raw)
  /\ (Py.lower suffix = ".json" -> read_file HAS_PDF raw suffix = _read_json raw)
  /\ (Py.lower suffix = ".xml" -> read_file HAS_PDF raw suffix = _read_xml raw)
  /\ (Py.lower suffix = ".pdf" ->
      read_file HAS_PDF raw suffix = _read_pdf HAS_PDF raw).
Proof.
  split; [apply read_file_lower |].
  unfold read_file.
  split; [| repeat split; intros H; try (destruct H as [H | H]);
            rewrite H; reflexivity].
  unfold SUPPORTED_INPUTS. simpl existsb. intros H.
  apply orb_false_elim in H as [E1 H]. apply orb_false_elim in H as [E2 H].
  apply orb_false_elim in H as [E3 H]. apply orb_false_elim in H as [E4 H].
  apply orb_false_elim in H as [E5 H]. apply orb_false_elim in H as [E6 _].
  now rewrite E1, E2, E3, E4, E5, E6.
Qed.

Lemma split_nonempty (sep : ascii) (s : string) : split sep s <> [].
Proof.
  destruct s as [| c s]; simpl; [discriminate |].
  destruct (Ascii.eqb c sep); [discriminate |].
  destruct (split sep s); discriminate.
Qed.

(** No character of [s] is [c]. *)
Lemma split_without (sep : ascii) (s : string) :
  (forall c, In c (Py.chars s) -> c <> sep) -> split sep s = [s].
Proof.
  induction s as [| c s IH]; intros Hnone; simpl.
  - reflexivity.
  - destruct (Ascii.eqb_spec c sep) as [-> | _].
    + exfalso. apply (Hnone sep); [now left | reflexivity].
    + rewrite IH; [reflexivity |]. intros c' Hc'. apply Hnone. now right.
Qed.

Lemma split_append (sep : ascii) (stem e : string) :
  (forall c, In c (Py.chars e) -> c <> sep) ->
  split sep (stem ++ String sep e) = split sep stem ++ [e].
Proof.
  intros Hnone. induction stem as [| c stem IH]; simpl.
  - rewrite Ascii.eqb_refl. now rewrite (split_without sep e Hnone).
  - destruct (Ascii.eqb c sep); rewrite IH; [reflexivity |].
    pose proof (split_nonempty sep stem) as Hne.
    destruct (split sep stem); [contradiction | reflexivity].
Qed.

(** Joining what [split] gives restores the text. *)
Lemma join_split (sep : ascii) (s : string) :
  Py.join (String sep "") (split sep s) = s.
Proof.
  induction s as [| c s IH]; simpl.
  - reflexivity.
  - pose proof (split_nonempty sep s) as Hne.
    destruct (Ascii.eqb_spec c sep) as [-> | _].
    + destruct (split sep s) as [| seg segs]; [contradiction |].
      simpl in *. now rewrite IH.
    + destruct (split sep s) as [| seg segs]; [contradiction |].
      destruct segs as [| seg' segs]; simpl in *; now rewrite <- IH.
Qed.

Lemma name_parts (stem e : string) :
  (forall c, In c (Py.chars e) -> c <> dot) ->
  suffix_of (stem ++ String dot e) = String dot (Py.lower e)
  /\ default_name (stem ++ String dot e) = stem.
Proof.
  intros Hnone. unfold suffix_of, default_name.
  rewrite (split_append dot stem e Hnone).
  split; [now rewrite last_last |].
  rewrite <- (join_split dot stem) at 2.
  pose proof (split_nonempty dot stem) as Hne.
  destruct (split dot stem) as [| x l]; [contradiction |].
  change ((x :: l) ++ [e]) with (x :: (l ++ [e])).
  destruct (l ++ [e]) as [| y t] eqn:E; [destruct l; discriminate E |].
  rewrite <- E. change (x :: l ++ [e]) with ((x :: l) ++ [e]).
  now rewrite removelast_last.
Qed.

(** X2. For a file name [stem.e] whose last part [e] is ASCII text
    without a dot, the suffix is the dot and [e] with its letters A..Z
    lowered, and the default name of the download is [stem], dots of the
    stem included; such a name [e] without a dot is its own default
    name, and all of it is taken for the suffix. *)
Theorem upload_name_parts (stem e : string) :
  (forall c, In c (Py.chars e) -> c <> dot /\ (Py.code c < 128)%N) ->
  suffix_of (stem ++ String dot e) = String dot (Py.lower e)
  /\ default_name (stem ++ String dot e) = stem
  /\ suffix_of e = String dot (Py.lower e)
  /\ default_name e = e.
Proof.
  intros Hascii.
  assert (Hnone : forall c, In c (Py.chars e) -> c <> dot)
    by (intros c Hc; apply (Hascii c Hc)).
  destruct (name_parts stem e Hnone) as [Hsuffix Hname].
  repeat split; [exact Hsuffix | exact Hname | |];
    unfold suffix_of, default_name; now rewrite (split_without dot e Hnone).
Qed.

(** X3. The decoder of an uploaded file depends only on the part of its
    name after the last dot, read without regard to case. *)
Theorem read_file_of_upload (HAS_PDF : bool) (raw stem e : string) :
  (forall c, In c (Py.chars e) -> c <> dot) ->
  read_file HAS_PDF raw (suffix_of (stem ++ String dot e))
  = read_file HAS_PDF raw (String dot e).
Proof.
  intros Hnone.
  destruct (name_parts stem e Hnone) as [-> _].
  rewrite (read_file_lower HAS_PDF raw (String dot (Py.lower e))).
  rewrite (read_file_lower HAS_PDF raw (String dot e)).
  now rewrite !lower_cons, lower_idem.
Qed.

End Dispatch.

(** ** More on the encoders *)

Section EncoderFacts.
Context {L : Library}.

Lemma df_to_bytes_lower (dfs : list DataFrame) (output : string) :
  df_to_bytes dfs output = df_to_bytes dfs (Py.lower output).
Proof. unfold df_to_bytes. now rewrite lower_idem. Qed.

(** X4. The encoder reads its tag without regard to case; a tag that is
    none of csv, excel..., json, xml is refused with [ValueError]; and
    when the encoder returns, the content type is the one of the branch
    the tag selects, the delimited-text branch returning only on a
    TableSet that is not empty. *)
Theorem df_to_bytes_content_type (dfs : list DataFrame) (output : string) :
  df_to_bytes dfs output = df_to_bytes dfs (Py.lower output)
  /\ (String.eqb (Py.lower output) "csv" = false ->
      Py.startswith (Py.lower output) "excel" = false ->
      String.eqb (Py.lower output) "json" = false ->
      String.eqb (Py.lower output) "xml" = false ->
      df_to_bytes dfs output = Raise ValueError)
  /\ (forall data mime,
        df_to_bytes dfs output = Ok (data, mime) ->
        (Py.lower output = "csv" /\ mime = "text/csv" /\ dfs <> [])
        \/ (Py.startswith (Py.lower output) "excel" = true
            /\ mime = "application/vnd.openxmlformats-officedocument.spreadsheetml.sheet")
        \/ (Py.lower output = "json" /\ mime = "application/json")
        \/ (Py.lower output = "xml" /\ mime = "application/xml")).
Proof.
  split; [apply df_to_bytes_lower |].
  unfold df_to_bytes. split.
  - intros -> -> -> ->. reflexivity.
  - intros data mime.
    destruct (String.eqb_spec (Py.lower output) "csv") as [Hcsv | _].
    { destruct dfs; [discriminate |]. intros [= _ <-]. left.
      repeat split; [exact Hcsv | discriminate]. }
    destruct (Py.startswith (Py.lower output) "excel") eqn:Hxlsx.
    { destruct (xlsx_save (named_sheets dfs)); [| discriminate].
      intros [= _ <-]. right. left. now split. }
    destruct (String.eqb_spec (Py.lower output) "json") as [Hjson | _].
    { cbv zeta. destruct (json_dumps _); [| discriminate].
      intros [= _ <-]. right. right. left. now split. }
    destruct (String.eqb_spec (Py.lower output) "xml") as [Hxml | _];
      [| discriminate].
    destruct (ET_tostring (xml_dataset dfs)); [| discriminate].
    intros [= _ <-]. right. right. right. now split.
Qed.

(** X5. For each of the four output formats the caller offers, the
    extension given to the download and the content type the encoder
    returns go together: csv with text/csv, xlsx with the spreadsheet
    type, json with application/json, xml with application/xml. *)
Theorem download_extension_matches (dfs : list DataFrame)
  (out_fmt data mime : string) :
  In out_fmt SUPPORTED_OUTPUTS ->
  df_to_bytes dfs out_fmt = Ok (data, mime) ->
  In (ext_of out_fmt, mime)
    [("csv", "text/csv");
     ("xlsx", "application/vnd.openxmlformats-officedocument.spreadsheetml.sheet");
     ("json", "application/json");
     ("xml", "application/xml")].
Proof.
  intros Hin Hok. unfold SUPPORTED_OUTPUTS in Hin. simpl in Hin.
  destruct Hin as [<- | [<- | [<- | [<- | []]]]]; unfold df_to_bytes in Hok;
    simpl Py.lower in Hok; simpl String.eqb in Hok; simpl Py.startswith in Hok;
    cbv iota in Hok.
  - destruct dfs; [discriminate |]. injection Hok as _ <-. now left.
  - destruct (xlsx_save (named_sheets dfs)); [| discriminate].
    injection Hok as _ <-. right. now left.
  - cbv zeta in Hok. destruct (json_dumps _); [| discriminate].
    injection Hok as _ <-. right. right. now left.
  - destruct (ET_tostring (xml_dataset dfs)); [| discriminate].
    injection Hok as _ <-. right. right. right. now left.
Qed.

(** X6. Whatever the column label, the tag of a cell element is neither
    empty nor made of white space only. *)
Theorem xml_tag_not_blank (k : label) :
  Py.truthy (Py.strip (xml_tag k)) = true.
Proof.
  destruct k as [s | n]; simpl; [| reflexivity].
  destruct (Py.truthy (Py.strip s)) eqn:E; [exact E | reflexivity].
Qed.

Lemma str_of_pos_inj (p q : positive) :
  NilEmpty.string_of_uint (Pos.to_uint p) = NilEmpty.string_of_uint (Pos.to_uint q) ->
  p = q.
Proof.
  intros H.
  assert (Hu : Pos.to_uint p = Pos.to_uint q).
  { pose proof (NilEmpty.usu (Pos.to_uint p)) as Hp.
    pose proof (NilEmpty.usu (Pos.to_uint q)) as Hq.
    rewrite H in Hp. rewrite Hp in Hq. now injection Hq. }
  now apply DecimalPos.Unsigned.to_uint_inj.
Qed.

Lemma sheet_name_inj (i j : nat) :
  sheet_name (S i) = sheet_name (S j) -> i = j.
Proof.
  unfold sheet_name, Py.str_of_Z. simpl Z.of_nat. intros H.
  injection H as H.
  apply str_of_pos_inj in H. apply (f_equal Pos.to_nat) in H.
  rewrite !SuccNat2Pos.id_succ in H. now injection H.
Qed.

Lemma sheet_names_nodup (a n : nat) :
  NoDup (map sheet_name (seq (S a) n)).
Proof.
  revert a. induction n as [| n IH]; intros a; simpl; constructor.
  - intros Hin. apply in_map_iff in Hin as (j & Heq & Hj).
    apply in_seq in Hj as [Hlo _].
    destruct j as [| j]; [inversion Hlo |].
    apply sheet_name_inj in Heq. subst j.
    exact (Nat.nle_succ_diag_l _ Hlo).
  - apply IH.
Qed.

Lemma combine_fst {A B : Type} (l : list A) (l' : list B) :
  List.length l = List.length l' -> map fst (combine l l') = l.
Proof.
  revert l'. induction l as [| a l IH]; intros [| b l'] H; simpl in *;
    try discriminate; [reflexivity |].
  f_equal. apply IH. now injection H.
Qed.

Lemma combine_snd {A B : Type} (l : list A) (l' : list B) :
  List.length l = List.length l' -> map snd (combine l l') = l'.
Proof.
  revert l'. induction l as [| a l IH]; intros [| b l'] H; simpl in *;
    try discriminate; [reflexivity |].
  f_equal. apply IH. now injection H.
Qed.

(** X7. The sheets written for a TableSet are its Tables in order, and
    no two of them bear the same name. *)
Theorem named_sheets_distinct (dfs : list DataFrame) :
  map snd (named_sheets dfs) = dfs
  /\ NoDup (map fst (named_sheets dfs)).
Proof.
  unfold named_sheets.
  assert (Hlen : List.length (map sheet_name (seq 1 (List.length dfs)))
                 = List.length dfs).
  { now rewrite length_map, length_seq. }
  split.
  - now apply combine_snd.
  - rewrite (combine_fst _ _ Hlen). apply sheet_names_nodup.
Qed.

Lemma label_eqb_eq (a b : label) : label_eqb a b = true <-> a = b.
Proof.
  destruct a as [s | n], b as [t | m]; simpl; split; intros H;
    try discriminate.
  - apply String.eqb_eq in H. now subst.
  - injection H as ->. apply String.eqb_refl.
  - apply Z.eqb_eq in H. now subst.
  - injection H as ->. apply Z.eqb_refl.
Qed.

Lemma label_set_fresh (k : label) (v : cell) (d : record) :
  ~ In k (map fst d) -> Dict.set label_eqb k v d = d ++ [(k, v)].
Proof.
  induction d as [| [k' v'] d IH]; simpl; intros Hfresh.
  - reflexivity.
  - destruct (label_eqb k k') eqn:E.
    + apply label_eqb_eq in E. exfalso. apply Hfresh. now left.
    + rewrite IH; [reflexivity |]. intros Hin. apply Hfresh. now right.
Qed.

Lemma label_set_keys (k x : label) (v : cell) (d : record) :
  In x (map fst (Dict.set label_eqb k v d)) -> x = k \/ In x (map fst d).
Proof.
  induction d as [| [k0 v0] d IH]; simpl.
  - intros [<- | []]. now left.
  - destruct (label_eqb k k0) eqn:E; simpl.
    + intros [<- | H]; [now left | now right; right].
    + intros [<- | H]; [now right; left |].
      destruct (IH H) as [-> | H']; [now left | now right; right].
Qed.

Lemma label_set_nodup (k : label) (v : cell) (d : record) :
  NoDup (map fst d) -> NoDup (map fst (Dict.set label_eqb k v d)).
Proof.
  induction d as [| [k0 v0] d IH]; simpl; intros Hnd.
  - constructor; [intros [] | constructor].
  - inversion Hnd as [| ? ? Hnotin Hnd']; subst.
    destruct (label_eqb k k0) eqn:E; simpl.
    + apply label_eqb_eq in E. subst k0. now constructor.
    + constructor; [| now apply IH].
      intros Hin. apply label_set_keys in Hin.
      destruct Hin as [-> | Hin]; [| now apply Hnotin].
      assert (Hrefl : label_eqb k k = true) by now apply label_eqb_eq.
      rewrite Hrefl in E. discriminate E.
Qed.

Lemma label_fold_nodup (pairs d : record) :
  NoDup (map fst d) ->
  NoDup (map fst (fold_left (fun d kv => Dict.set label_eqb (fst kv) (snd kv) d)
                    pairs d)).
Proof.
  revert d. induction pairs as [| kv pairs IH]; intros d Hnd; simpl.
  - exact Hnd.
  - apply IH. now apply label_set_nodup.
Qed.

Lemma label_fold_distinct (pairs d : record) :
  NoDup (map fst (d ++ pairs)) ->
  fold_left (fun d kv => Dict.set label_eqb (fst kv) (snd kv) d) pairs d
  = d ++ pairs.
Proof.
  revert d. induction pairs as [| [k v] pairs IH]; intros d Hnd; simpl.
  - now rewrite app_nil_r.
  - rewrite label_set_fresh.
    + rewrite IH; rewrite <- app_assoc; [reflexivity | exact Hnd].
    + rewrite map_app in Hnd. simpl in Hnd.
      apply NoDup_remove_2 in Hnd. intros Hin. apply Hnd.
      apply in_or_app. now left.
Qed.

Lemma combine_keys_nodup {A B : Type} (l : list A) (l' : list B) :
  NoDup l -> NoDup (map fst (combine l l')).
Proof.
  revert l'. induction l as [| a l IH]; intros l' Hnd; simpl.
  - constructor.
  - destruct l' as [| b l']; simpl; [constructor |].
    inversion Hnd as [| ? ? Hnotin Hnd']; subst.
    constructor; [| now apply IH].
    intros Hin. apply in_map_iff in Hin as ([a' b'] & Heq & Hin).
    simpl in Heq. subst a'. apply in_combine_l in Hin. now apply Hnotin.
Qed.

(** X8. The record of a row never holds a label twice. A Table
    without columns gives no record, and so a sheet element without any
    row element, whatever the number of its rows. When the Table has
    columns and their labels are distinct, the record of a row pairs the
    labels with the cells in column order, and the markup encoder writes
    one child element per cell of the row, in column order. *)
Theorem records_of_distinct_columns (name : string) (df : DataFrame) :
  (forall r, In r (to_dict_records df) -> NoDup (map fst r))
  /\ (columns df = [] ->
      to_dict_records df = []
      /\ xml_sheet (name, df) = Element "sheet" [("name", name)] None [])
  /\ (columns df <> [] -> NoDup (columns df) ->
      to_dict_records df = map (combine (columns df)) (rows df)
      /\ xml_sheet (name, df)
         = Element "sheet" [("name", name)] None
             (map (fun row =>
                     Element "row" [] None
                       (map xml_cell (combine (columns df) row)))
                (rows df))).
Proof.
  split; [| split].
  - intros r Hr. unfold to_dict_records in Hr.
    destruct (columns df) as [| c cs]; [destruct Hr |].
    apply in_map_iff in Hr as (row & <- & _).
    apply label_fold_nodup. constructor.
  - intros Hnone. unfold xml_sheet, to_dict_records. simpl snd.
    rewrite Hnone. now split.
  - intros Hsome Hnd.
    assert (Hrecords : to_dict_records df = map (combine (columns df)) (rows df)).
    { unfold to_dict_records.
      destruct (columns df) as [| c cs] eqn:Hcols; [contradiction |].
      apply map_ext. intros row. unfold Dict.of_pairs.
      apply (label_fold_distinct (combine (c :: cs) row) []).
      now apply combine_keys_nodup. }
    split; [exact Hrecords |].
    unfold xml_sheet. simpl fst. simpl snd. rewrite Hrecords, map_map.
    reflexivity.
Qed.

(** The number of records of a Table. *)
Lemma to_dict_records_length (df : DataFrame) :
  List.length (to_dict_records df)
  = match columns df with
    | [] => 0
    | _ :: _ => List.length (rows df)
    end.
Proof.
  unfold to_dict_records. destruct (columns df); [reflexivity |].
  apply length_map.
Qed.

(** X9. The markup encoder writes one sheet element per Table, in
    order: the i-th (from 0) is named "Sheet{i+1}" and holds one row
    element per row of the i-th Table when that Table has a column, and
    no row element when it has none. *)
Theorem xml_dataset_sheets (dfs : list DataFrame) :
  List.length (children_of (xml_dataset dfs)) = List.length dfs
  /\ (forall i df,
        nth_error dfs i = Some df ->
        exists rows_el,
          nth_error (children_of (xml_dataset dfs)) i
          = Some (Element "sheet" [("name", sheet_name (S i))] None rows_el)
          /\ rows_el = map xml_row (to_dict_records df)
          /\ List.length rows_el
             = match columns df with
               | [] => 0
               | _ :: _ => List.length (rows df)
               end).
Proof.
  unfold xml_dataset. simpl children_of. split.
  - now rewrite length_map, named_sheets_length.
  - intros i df Hi. exists (map xml_row (to_dict_records df)).
    split; [| split; [reflexivity |]].
    + rewrite nth_error_map. unfold named_sheets.
      now rewrite (named_sheets_from 1 dfs i df Hi).
    + rewrite length_map. apply to_dict_records_length.
Qed.

End EncoderFacts.

(** ** More on the markup decoder *)

Section XmlFacts.
Context {L : Library}.

Lemma iter_unfold (tag : string) (attrib : list (string * string))
  (text : option string) (children : list element) :
  iter (Element tag attrib text children)
  = Element tag attrib text children :: flat_map iter children.
Proof. reflexivity. Qed.

Lemma height_child (tag : string) (attrib : list (string * string))
  (text : option string) (children : list element) (c : element) :
  In c children -> height c < height (Element tag attrib text children).
Proof.
  simpl. intros Hin. apply Nat.lt_succ_r.
  induction children as [| c' children IH]; [destruct Hin |].
  destruct Hin as [-> | Hin].
  - apply Nat.le_max_l.
  - etransitivity; [apply IH, Hin | apply Nat.le_max_r].
Qed.

(** An element with children has a leaf-parent element at or below
    it. *)
Lemma leaf_parent_below (n : nat) (e : element) :
  height e <= n -> children_of e <> [] ->
  exists p, In p (iter e) /\ leaf_parent p = true.
Proof.
  revert e. induction n as [| n IH]; intros e Hheight Hchildren.
  - destruct e; simpl in Hheight. inversion Hheight.
  - destruct e as [tag attrib text children]. simpl in Hchildren.
    destruct (forallb (fun c => negb (Py.nonempty (children_of c))) children)
      eqn:Hleaves.
    + exists (Element tag attrib text children). split.
      * rewrite iter_unfold. now left.
      * unfold leaf_parent. simpl children_of. rewrite Hleaves.
        destruct children; [contradiction | reflexivity].
    + assert (Hsome : exists c, In c children /\ children_of c <> []).
      { clear - Hleaves. induction children as [| c children IHc];
          [discriminate |].
        simpl in Hleaves. apply andb_false_iff in Hleaves as [Hc | Hrest].
        - exists c. split; [now left |]. destruct (children_of c);
            [discriminate | discriminate].
        - destruct (IHc Hrest) as (c' & Hin & Hne). exists c'.
          split; [now right | exact Hne]. }
      destruct Hsome as (c & Hin & Hne).
      pose proof (height_child tag attrib text children c Hin) as Hlt.
      destruct (IH c) as (p & Hp & Hleaf); [| exact Hne |].
      { apply Nat.lt_succ_r. eapply Nat.lt_le_trans; [exact Hlt | exact Hheight]. }
      exists p. split; [| exact Hleaf].
      rewrite iter_unfold. right. apply in_flat_map. now exists c.
Qed.

Lemma frame_of_columns_length (n : nat) (cols : list (label * list cell)) :
  List.length (rows (frame_of_columns n cols)) = n.
Proof. unfold frame_of_columns. simpl. now rewrite length_map, length_seq. Qed.

Lemma frame_of_columns_rectangular (n : nat) (cols : list (label * list cell)) :
  rectangular (frame_of_columns n cols).
Proof.
  unfold rectangular, frame_of_columns. simpl. intros row Hrow.
  apply in_map_iff in Hrow as (i & <- & _). now rewrite !length_map.
Qed.

Lemma leaf_rows_childless (root : element) :
  children_of root = [] -> leaf_rows root = [] /\ iter root = [root].
Proof.
  destruct root as [tag attrib text children]. simpl. intros ->.
  unfold leaf_rows. rewrite iter_unfold. simpl. now split.
Qed.

(** X10. The Table read from markup by the fallback is never without
    rows. When the root has a child element, some element is a leaf
    parent and the Table has one row per leaf-parent element; the flat
    dump of elements is taken only for a root without children, and then
    it has exactly one row, that of the root. *)
Theorem xml_fallback_rows (root : element) :
  1 <= List.length (rows (xml_fallback root))
  /\ (children_of root <> [] ->
      List.length (rows (xml_fallback root))
      = List.length (filter leaf_parent (iter root)))
  /\ (children_of root = [] -> List.length (rows (xml_fallback root)) = 1).
Proof.
  assert (Hsome : children_of root <> [] ->
                  List.length (rows (xml_fallback root))
                  = List.length (filter leaf_parent (iter root))
                  /\ filter leaf_parent (iter root) <> []).
  { intros Hne.
    destruct (leaf_parent_below (height root) root (le_n _) Hne)
      as (p & Hp & Hleaf).
    assert (Hin : In p (filter leaf_parent (iter root)))
      by (apply filter_In; now split).
    unfold xml_fallback, leaf_rows.
    destruct (filter leaf_parent (iter root)) as [| q qs]; [destruct Hin |].
    split; [| discriminate].
    simpl map. unfold frame_of_records_columns.
    rewrite frame_of_columns_length. simpl. now rewrite !length_map. }
  assert (Hnone : children_of root = [] ->
                  List.length (rows (xml_fallback root)) = 1).
  { intros Hnil. unfold xml_fallback.
    destruct (leaf_rows_childless root Hnil) as [-> ->].
    unfold frame_of_records. now rewrite frame_of_columns_length. }
  split; [| split; [intros Hne; now apply Hsome | exact Hnone]].
  destruct (children_of root) as [| c cs] eqn:Hc.
  - now rewrite Hnone.
  - destruct Hsome as [-> Hne]; [discriminate |].
    destruct (filter leaf_parent (iter root)); [contradiction |].
    simpl. apply le_n_S, Nat.le_0_l.
Qed.

Lemma convert_single (c : cell) :
  wide_int c = false -> maybe_convert_objects [c] = [c].
Proof.
  intros Hwide. unfold maybe_convert_objects.
  destruct c; simpl in *; try reflexivity. now rewrite Hwide.
Qed.

Lemma convert_with_text (col : list cell) (v : string) :
  In (CStr v) col -> maybe_convert_objects col = col.
Proof.
  intros Hin. unfold maybe_convert_objects.
  destruct (forallb is_number_or_none col) eqn:E; [| reflexivity].
  rewrite forallb_forall in E. specialize (E _ Hin). discriminate E.
Qed.

Lemma union_keys_fold {V : Type} (r : list (string * V)) (acc : list string) :
  NoDup (acc ++ map fst r) ->
  fold_left (fun keys kv =>
               if existsb (String.eqb (fst kv)) keys then keys
               else keys ++ [fst kv]) r acc
  = acc ++ map fst r.
Proof.
  revert acc. induction r as [| [k v] r IH]; intros acc Hnd; simpl.
  - now rewrite app_nil_r.
  - assert (Hfresh : existsb (String.eqb k) acc = false).
    { destruct (existsb (String.eqb k) acc) eqn:E; [| reflexivity].
      apply existsb_exists in E as (x & Hx & Hkx).
      apply String.eqb_eq in Hkx. subst x.
      simpl in Hnd. apply NoDup_remove_2 in Hnd.
      exfalso. apply Hnd, in_or_app. now left. }
    rewrite Hfresh, IH; rewrite <- app_assoc; [reflexivity | exact Hnd].
Qed.

Lemma lookup_own_keys {V : Type} (d : V) (r : list (string * V)) :
  NoDup (map fst r) ->
  map (fun k => match dict_get k r with
                | Some c => c
                | None => d
                end) (map fst r)
  = map snd r.
Proof.
  unfold dict_get.
  induction r as [| [k v] r IH]; simpl; intros Hnd; [reflexivity |].
  inversion Hnd as [| ? ? Hnotin Hnd']; subst.
  rewrite String.eqb_refl. f_equal.
  rewrite <- (IH Hnd'). apply map_ext_in. intros k' Hk'.
  destruct (String.eqb_spec k' k) as [-> | _]; [contradiction | reflexivity].
Qed.

Lemma key_has_value {V : Type} (k : string) (r : list (string * V)) :
  In k (map fst r) -> exists v, dict_get k r = Some v /\ In v (map snd r).
Proof.
  unfold dict_get.
  induction r as [| [k' v'] r IH]; simpl; [intros [] |].
  intros Hin. destruct (String.eqb_spec k k') as [-> | Hne].
  - exists v'. split; [reflexivity | now left].
  - destruct Hin as [-> | Hin]; [contradiction |].
    destruct (IH Hin) as (v & Hv & Hin'). exists v. split; [exact Hv | now right].
Qed.

(** The frame of a single record with distinct keys: its keys are the
    columns, its values the one row. *)
Lemma frame_of_single_record (r : list (string * cell)) :
  NoDup (map fst r) ->
  (forall c, In c (map snd r) -> wide_int c = false) ->
  frame_of_records [r] = mkDataFrame (map LStr (map fst r)) [map snd r].
Proof.
  intros Hnd Hwide. unfold frame_of_records.
  assert (Hkeys : union_keys [r] = map fst r).
  { unfold union_keys. simpl fold_left. apply (union_keys_fold r []), Hnd. }
  rewrite Hkeys. unfold frame_of_columns.
  rewrite !map_map. simpl List.length. simpl seq. cbn [map fst snd].
  f_equal. f_equal.
  rewrite <- (lookup_own_keys nan r Hnd), !map_map.
  apply map_ext_in. intros kv Hkv.
  destruct (key_has_value (fst kv) r (in_map fst r kv Hkv)) as (v & Hv & Hin).
  rewrite Hv. now rewrite (convert_single v (Hwide v Hin)).
Qed.

Lemma fold_assign_keys {V : Type} (pairs d : list (string * V)) :
  exists rest, Dict.keys (fold_left assign pairs d) = Dict.keys d ++ rest.
Proof.
  revert d. induction pairs as [| [k v] pairs IH]; intros d; simpl.
  - exists []. now rewrite app_nil_r.
  - destruct (IH (assign d (k, v))) as (rest & ->).
    assert (Hstep : exists one, Dict.keys (assign d (k, v)) = Dict.keys d ++ one).
    { unfold assign, dict_set, Dict.keys. simpl. clear.
      induction d as [| [k' v'] d IHd]; simpl.
      - now exists [k].
      - destruct (String.eqb_spec k k') as [-> | _]; simpl.
        + exists []. now rewrite app_nil_r.
        + destruct IHd as (one & ->). now exists one. }
    destruct Hstep as (one & ->). exists (one ++ rest). now rewrite app_assoc.
Qed.

(** X11. For a root without children the Table is the flat dump of the
    root alone: one row, whose columns are "tag", "text" and then the
    names of the root's other attributes, each column once (an
    attribute named tag or text takes the place of the element's). *)
Theorem xml_flat_dump (root : element) :
  children_of root = [] ->
  xml_fallback root
  = mkDataFrame (map LStr (Dict.keys (flat_row root)))
      [map (fun kv => CStr (snd kv)) (flat_row root)]
  /\ NoDup (Dict.keys (flat_row root))
  /\ exists rest, Dict.keys (flat_row root) = "tag" :: "text" :: rest.
Proof.
  intros Hnil.
  assert (Hnd : NoDup (Dict.keys (flat_row root))).
  { unfold flat_row.
    change (fun (d : list (string * string)) (kv : string * string) =>
              dict_set (fst kv) (snd kv) d) with (@assign string).
    apply fold_assign_nodup. repeat constructor; simpl; intuition discriminate. }
  split; [| split; [exact Hnd |]].
  - unfold xml_fallback.
    destruct (leaf_rows_childless root Hnil) as [-> ->]. simpl map.
    rewrite frame_of_single_record.
    + unfold str_cells, Dict.keys. now rewrite !map_map.
    + unfold str_cells. rewrite map_map. exact Hnd.
    + intros c Hc. unfold str_cells in Hc. rewrite map_map in Hc.
      apply in_map_iff in Hc as (kv & <- & _). reflexivity.
  - unfold flat_row.
    change (fun (d : list (string * string)) (kv : string * string) =>
              dict_set (fst kv) (snd kv) d) with (@assign string).
    destruct (fold_assign_keys (attrib_of root)
                [("tag", tag_of root); ("text", stripped_text root)])
      as (rest & ->).
    now exists rest.
Qed.

Lemma compare_lt_trans (a b c : string) :
  String.compare a b = Lt -> String.compare b c = Lt -> String.compare a c = Lt.
Proof.
  intros Hab Hbc.
  apply OrderedTypeEx.String_as_OT.cmp_lt.
  apply (OrderedTypeEx.String_as_OT.lt_trans a b c);
    now apply OrderedTypeEx.String_as_OT.cmp_lt.
Qed.

Lemma compare_refl (a : string) : String.compare a a = Eq.
Proof.
  pose proof (String.compare_antisym a a) as H.
  destruct (String.compare a a); try reflexivity; discriminate H.
Qed.

Lemma insert_sorted_in (k x : string) (l : list string) :
  In x (Py.insert_sorted k l) <-> x = k \/ In x l.
Proof.
  induction l as [| k' l IH]; simpl.
  - intuition.
  - destruct (String.compare k k') eqn:E; simpl.
    + apply String.compare_eq_iff in E. subst k'. intuition.
    + intuition.
    + rewrite IH. intuition.
Qed.

Lemma insert_sorted_ascending (k : string) (l : list string) :
  ascending l -> ascending (Py.insert_sorted k l).
Proof.
  induction l as [| k' l IH]; simpl.
  - intros _. split; [intros x [] | exact I].
  - intros [Hhead Htail].
    destruct (String.compare k k') eqn:E; simpl.
    + now split.
    + split; [| now split].
      intros x [<- | Hx]; [exact E |].
      apply (compare_lt_trans k k' x E), Hhead, Hx.
    + split; [| now apply IH].
      intros x Hx. apply insert_sorted_in in Hx as [-> | Hx].
      * rewrite String.compare_antisym, E. reflexivity.
      * now apply Hhead.
Qed.

Lemma sorted_set_fold (ks acc : list string) :
  ascending acc ->
  ascending (fold_left (fun acc k => Py.insert_sorted k acc) ks acc)
  /\ forall x, In x (fold_left (fun acc k => Py.insert_sorted k acc) ks acc)
               <-> In x ks \/ In x acc.
Proof.
  revert acc. induction ks as [| k ks IH]; intros acc Hacc; simpl.
  - split; [exact Hacc | intuition].
  - destruct (IH (Py.insert_sorted k acc)) as [Hasc Hin];
      [now apply insert_sorted_ascending |].
    split; [exact Hasc |].
    intros x. rewrite Hin, insert_sorted_in. intuition.
Qed.

Lemma ascending_nodup (l : list string) : ascending l -> NoDup l.
Proof.
  induction l as [| k l IH]; simpl; intros H; constructor.
  - destruct H as [Hhead _]. intros Hin. specialize (Hhead k Hin).
    rewrite compare_refl in Hhead. discriminate Hhead.
  - apply IH, H.
Qed.

Lemma get_str_cells (k : string) (row : list (string * string)) :
  match dict_get k (str_cells row) with
  | Some c => c
  | None => nan
  end = cell_of_row row k.
Proof.
  unfold cell_of_row, dict_get, str_cells.
  induction row as [| [k' v'] row IH]; simpl; [reflexivity |].
  destruct (String.eqb k k'); [reflexivity | exact IH].
Qed.

(** X12. When the root has a child element, the columns of the Table
    are the tag names found among the children of the leaf-parent
    elements, each once and in ascending code-point order, and the row
    of a leaf-parent element holds under each column the text kept for
    that tag, or the missing value when the element has no child of that
    tag. *)
Theorem xml_leaf_parent_table (root : element) :
  children_of root <> [] ->
  let ks := Py.sorted_set (flat_map (Dict.keys (V:=string)) (leaf_rows root)) in
  xml_fallback root
  = mkDataFrame (map LStr ks)
      (map (fun row => map (cell_of_row row) ks) (leaf_rows root))
  /\ ascending ks
  /\ NoDup ks
  /\ (forall k, In k ks <->
                exists row, In row (leaf_rows root) /\ In k (Dict.keys row)).
Proof.
  intros Hne ks.
  destruct (sorted_set_fold (flat_map (Dict.keys (V:=string)) (leaf_rows root)) [] I)
    as [Hasc Hin].
  fold (Py.sorted_set (flat_map (Dict.keys (V:=string)) (leaf_rows root))) in Hasc, Hin.
  fold ks in Hasc, Hin.
  assert (Hkeys : forall k, In k ks <->
                    exists row, In row (leaf_rows root) /\ In k (Dict.keys row)).
  { intros k. rewrite Hin, in_flat_map. simpl. intuition. }
  split; [| split; [exact Hasc | split; [now apply ascending_nodup | exact Hkeys]]].
  destruct (leaf_parent_below (height root) root (le_n _) Hne) as (p & Hp & Hleaf).
  assert (Hrow : In (leaf_row p) (leaf_rows root)).
  { unfold leaf_rows. apply in_map, filter_In. now split. }
  unfold xml_fallback. fold ks.
  destruct (leaf_rows root) as [| r rs] eqn:Hrows; [destruct Hrow |].
  rewrite <- Hrows in *. clear Hrow.
  unfold frame_of_records_columns, frame_of_columns.
  rewrite !map_map, length_map. simpl fst. f_equal.
  rewrite <- (map_nth_seq (fun row => map (cell_of_row row) ks) [] (leaf_rows root)).
  apply map_ext_in. intros i Hi. apply in_seq in Hi as [_ Hi]. simpl in Hi.
  rewrite map_map.
  apply map_ext_in. intros k Hk. simpl snd.
  assert (Hcol : map (fun r0 => match dict_get k r0 with
                                | Some c => c
                                | None => nan
                                end) (map str_cells (leaf_rows root))
                 = map (fun row => cell_of_row row k) (leaf_rows root)).
  { rewrite map_map. apply map_ext. intros row. apply get_str_cells. }
  rewrite Hcol.
  apply Hkeys in Hk as (row & Hrow & Hkrow).
  destruct (key_has_value k row Hkrow) as (v & Hv & _).
  rewrite (convert_with_text _ v).
  - apply (nth_map_in (fun row => cell_of_row row k) (leaf_rows root) i [] nan Hi).
  - apply in_map_iff. exists row. split; [| exact Hrow].
    unfold cell_of_row. now rewrite Hv.
Qed.

End XmlFacts.

(** ** More on the structured-text and delimited-text decoders *)

Section DecoderFacts.
Context {L : Library}.

(** X13. When the delimited-text, the structured-text or the markup
    decoder returns, it returns exactly one Table. *)
Theorem decoders_return_one_table (raw : string) (dfs : list DataFrame) :
  _read_csv raw = Ok dfs \/ _read_json raw = Ok dfs \/ _read_xml raw = Ok dfs ->
  exists df, dfs = [df].
Proof.
  intros [H | [H | H]].
  - unfold _read_csv in H. destruct (pd_read_csv raw) as [df |]; [| discriminate H].
    injection H as <-. now exists df.
  - unfold _read_json in H. cbv zeta in H.
    match type of H with
    | bind ?r _ = _ => destruct r as [df |]; [| discriminate H]
    end.
    injection H as <-. now exists df.
  - unfold _read_xml in H. destruct (read_xml raw) as [df |]; simpl in H.
    + injection H as <-. now exists df.
    + destruct (read_xml_closes raw); [discriminate H |].
      destruct (ET_parse raw) as [root |]; [| discriminate H].
      injection H as <-. now exists (xml_fallback root).
Qed.






Lemma filter_all {A : Type} (f : A -> bool) (l : list A) :
  (forall x, In x l -> f x = true) -> filter f l = l.
Proof.
  induction l as [| a l IH]; simpl; intros H; [reflexivity |].
  rewrite (H a (or_introl eq_refl)), IH; [reflexivity |].
  intros x Hx. apply H. now right.
Qed.

Lemma filter_none {A : Type} (f : A -> bool) (l : list A) :
  (forall x, In x l -> f x = false) -> filter f l = [].
Proof.
  induction l as [| a l IH]; simpl; intros H; [reflexivity |].
  rewrite (H a (or_introl eq_refl)). apply IH.
  intros x Hx. apply H. now right.
Qed.

Lemma scalar_fields (fields : list (string * json)) :
  (forall kv, In kv fields -> is_scalar (snd kv) = true) ->
  existsb (fun kv => is_dict (snd kv)) fields = false
  /\ flat_map (fun kv : string * json =>
                 match snd kv with
                 | JList items => [List.length items]
                 | _ => []
                 end) fields = [].
Proof.
  induction fields as [| [k v] fields IH]; simpl; intros H; [now split |].
  destruct IH as [-> ->]; [intros kv Hkv; apply H; now right |].
  specialize (H (k, v) (or_introl eq_refl)). simpl in H.
  destruct v; try discriminate H; now split.
Qed.

(** X16. A document that parses to a single record whose values are
    all scalars cannot be read column by column and is read as one row:
    the keys are the columns, in the record's order, and the values are
    the cells. *)
Theorem read_json_flat_record (raw : string) (fields : list (string * json)) :
  loads_document raw = Ok (JDict fields) ->
  fields <> [] ->
  NoDup (map fst fields) ->
  (forall kv, In kv fields ->
              is_scalar (snd kv) = true /\ wide_int (cell_of_json (snd kv)) = false) ->
  DataFrame_of_dict fields = Raise ValueError
  /\ _read_json raw
     = Ok [mkDataFrame (map LStr (map fst fields))
             [map (fun kv => cell_of_json (snd kv)) fields]].
Proof.
  intros Hdoc Hne Hnd Hscalar.
  destruct (scalar_fields fields (fun kv Hkv => proj1 (Hscalar kv Hkv)))
    as [Hdicts Hlists].
  assert (Hraise : DataFrame_of_dict fields = Raise ValueError).
  { unfold DataFrame_of_dict. rewrite Hdicts, Hlists.
    destruct fields; [contradiction | reflexivity]. }
  split; [exact Hraise |].
  unfold _read_json, load_data. rewrite Hdoc. cbv zeta. rewrite Hraise.
  unfold try_except, json_normalize, _simple_json_normalize,
    _normalise_json_ordered.
  rewrite (filter_all (fun kv : string * json => negb (is_dict (snd kv))) fields),
    (filter_none (fun kv : string * json => is_dict (snd kv)) fields).
  - simpl fold_left. unfold bind.
    rewrite frame_of_single_record.
    + now rewrite !map_map.
    + now rewrite map_map.
    + intros c Hc. rewrite map_map in Hc.
      apply in_map_iff in Hc as (kv & <- & Hkv). apply (Hscalar kv Hkv).
  - intros kv Hkv. destruct (Hscalar kv Hkv) as [Hs _].
    unfold is_scalar in Hs. apply andb_prop in Hs as [_ Hs].
    now apply negb_true_iff in Hs.
  - intros kv Hkv. destruct (Hscalar kv Hkv) as [Hs _].
    unfold is_scalar in Hs. now apply andb_prop in Hs as [_ Hs].
Qed.

(** X17. A document that parses to a single record whose values are
    all sequences of one common length n is read column by column: the
    keys are the columns, in the record's order, and the Table has n
    rows, each with one cell per column. *)
Theorem read_json_table_of_arrays (raw : string) (fields : list (string * json))
  (n : nat) :
  loads_document raw = Ok (JDict fields) ->
  fields <> [] ->
  (forall kv, In kv fields ->
              exists items, snd kv = JList items /\ List.length items = n) ->
  exists df,
    _read_json raw = Ok [df]
    /\ columns df = map LStr (map fst fields)
    /\ List.length (rows df) = n
    /\ rectangular df.
Proof.
  intros Hdoc Hne Hlists.
  assert (Hdicts : existsb (fun kv => is_dict (snd kv)) fields = false).
  { clear - Hlists. induction fields as [| kv fields IH]; [reflexivity |].
    simpl. destruct (Hlists kv (or_introl eq_refl)) as (items & -> & _). simpl.
    apply IH. intros kv' Hkv'. apply Hlists. now right. }
  assert (Hlengths : flat_map (fun kv : string * json =>
                                 match snd kv with
                                 | JList items => [List.length items]
                                 | _ => []
                                 end) fields
                     = map (fun _ => n) fields).
  { clear - Hlists. induction fields as [| kv fields IH]; [reflexivity |].
    simpl. destruct (Hlists kv (or_introl eq_refl)) as (items & -> & ->). simpl.
    f_equal. apply IH. intros kv' Hkv'. apply Hlists. now right. }
  unfold _read_json, load_data. rewrite Hdoc. cbv zeta.
  unfold DataFrame_of_dict. rewrite Hdicts, Hlengths.
  assert (Hsame : forall l : list (string * json),
                    forallb (Nat.eqb n) (map (fun _ => n) l) = true).
  { intros l. apply forallb_forall. intros x Hx.
    apply in_map_iff in Hx as (_ & <- & _). apply Nat.eqb_refl. }
  destruct fields as [| kv fields]; [contradiction |].
  change (map (fun _ : string * json => n) (kv :: fields))
    with (n :: map (fun _ : string * json => n) fields).
  cbv iota. rewrite Hsame. simpl try_except. unfold bind.
  eexists. split; [reflexivity |]. split; [| split].
  - unfold frame_of_columns. simpl columns. now rewrite !map_map.
  - apply frame_of_columns_length.
  - apply frame_of_columns_rectangular.
Qed.


End DecoderFacts.

(** ** More on the delimited-text, page-layout and workbook decoders *)

Section TableFacts.
Context {L : Library} {X : ExcelLibrary}.

(** X19. Whatever types the columns are given, the delimited-text
    decoder keeps the shape of a regular input: the header names are the
    columns, there is one row per data record, and every row has one
    cell per column. An input without any record is refused with
    [EmptyDataError]. *)
Theorem read_csv_shape (raw : string) (records : list (list string)) :
  csv_tokenize raw = Ok records ->
  match records with
  | [] => _read_csv raw = Raise EmptyDataError
  | header :: body =>
      regular_csv header body = true ->
      exists df,
        _read_csv raw = Ok [df]
        /\ columns df = map LStr header
        /\ List.length (rows df) = List.length body
        /\ rectangular df
  end.
Proof.
  intros Htok. destruct records as [| header body];
    unfold _read_csv, pd_read_csv; rewrite Htok; [reflexivity |].
  intros Hreg. unfold bind at 2. rewrite Hreg. unfold bind.
  eexists. split; [reflexivity |]. split; [| split].
  - unfold frame_of_columns. simpl columns. rewrite map_map. simpl.
    apply (map_nth_seq LStr "" header).
  - apply frame_of_columns_length.
  - apply frame_of_columns_rectangular.
Qed.

Lemma infer_csv_column_marks (fields : list string) :
  (forall f, In f fields -> csv_na f = false -> csv_overflow f = false) ->
  exists value : string -> cell,
    infer_csv_column fields
    = map (fun f => if csv_na f then nan else value f) fields.
Proof.
  intros Hover. unfold infer_csv_column.
  rewrite (no_overflow_present fields Hover).
  destruct (forallb _ _); [eexists; reflexivity |].
  destruct (forallb _ _); [eexists; reflexivity |].
  destruct (forallb _ _); eexists; reflexivity.
Qed.

(** X20. In a regular input a field that is a missing-value marker
    (the empty field, NA, null, ...) is decoded to the missing value
    whether its column is read as integers, floats, booleans or text,
    provided the integer parser reports no overflow on a field of the
    column (after an overflow the column may be left as text, its
    markers included). *)
Theorem read_csv_missing (raw : string) (header : list string)
  (body : list (list string)) (i j : nat) :
  csv_tokenize raw = Ok (header :: body) ->
  regular_csv header body = true ->
  i < List.length body ->
  j < List.length header ->
  (forall r, In r body -> csv_na (nth j r "") = false ->
             csv_overflow (nth j r "") = false) ->
  csv_na (nth j (nth i body []) "") = true ->
  exists df,
    _read_csv raw = Ok [df]
    /\ nth i (map (fun row => nth j row CNone) (rows df)) CNone = nan.
Proof.
  intros Htok Hreg Hi Hj Hover Hna. unfold _read_csv, pd_read_csv.
  rewrite Htok. unfold bind at 2. rewrite Hreg. unfold bind.
  eexists. split; [reflexivity |].
  unfold frame_of_columns. simpl rows. rewrite map_map.
  rewrite (nth_map_in _ (seq 0 (List.length body)) i 0 CNone)
    by now rewrite length_seq.
  rewrite seq_nth by exact Hi. simpl Nat.add. rewrite map_map.
  rewrite (nth_map_in _ (seq 0 (List.length header)) j 0 CNone)
    by now rewrite length_seq.
  rewrite seq_nth by exact Hj. simpl Nat.add. simpl snd.
  destruct (infer_csv_column_marks (map (fun r => nth j r "") body))
    as (value & ->).
  { intros f Hf. apply in_map_iff in Hf as (r & <- & Hr). now apply Hover. }
  rewrite map_map.
  rewrite (nth_map_in _ body i [] nan Hi). now rewrite Hna.
Qed.

Lemma firstn_text_bound (n : nat) (raw : string) :
  String.length (take_bytes n raw) <= n.
Proof.
  unfold take_bytes. rewrite <- chars_length, chars_text.
  rewrite length_firstn. apply Nat.le_min_l.
Qed.

Lemma decode_latin1_ascii (raw : string) :
  (forall c, In c (Py.chars raw) -> (Py.code c < 128)%N) ->
  decode_latin1 raw = raw.
Proof.
  intros Hascii. unfold decode_latin1.
  rewrite <- (text_chars raw) at 2. f_equal.
  induction (Py.chars raw) as [| c l IH]; simpl; [reflexivity |].
  rewrite IH by (intros c' Hc'; apply Hascii; now right).
  specialize (Hascii c (or_introl eq_refl)).
  unfold utf8_encode. apply N.ltb_lt in Hascii. rewrite Hascii.
  unfold Py.code. now rewrite ascii_N_embedding.
Qed.

(** X21. Without the extraction library the page-layout decoder never
    fails and never reads more than the first 2000 bytes: it returns one
    Table of one row and one column "text"; for a content of at most
    2000 bytes, all ASCII, the cell is the content itself. *)
Theorem read_pdf_without_library (raw : string) :
  _read_pdf false raw
  = Ok [mkDataFrame [LStr "text"] [[CStr (decode_latin1 (take_bytes 2000 raw))]]]
  /\ String.length (take_bytes 2000 raw) <= 2000
  /\ (String.length raw <= 2000 ->
      (forall c, In c (Py.chars raw) -> (Py.code c < 128)%N) ->
      decode_latin1 (take_bytes 2000 raw) = raw).
Proof.
  split; [reflexivity |]. split; [apply firstn_text_bound |].
  intros Hlen Hascii.
  assert (Htake : take_bytes 2000 raw = raw).
  { unfold take_bytes. rewrite firstn_all2 by now rewrite chars_length.
    apply text_chars. }
  rewrite Htake. now apply decode_latin1_ascii.
Qed.

Lemma frames_of_grids_length (tables : list grid) (dfs : list DataFrame) :
  frames_of_grids tables = Ok dfs ->
  List.length dfs = List.length (filter Py.nonempty tables).
Proof.
  revert dfs. induction tables as [| t tables IH]; intros dfs H; simpl in H.
  - injection H as <-. reflexivity.
  - destruct t as [| t0 rest]; simpl; [now apply IH |].
    destruct (frame_of_grid t0 rest) as [df |]; [| discriminate H].
    simpl in H. destruct (frames_of_grids tables) as [dfs' |]; [| discriminate H].
    injection H as <-. simpl. f_equal. now apply IH.
Qed.

(** X22. With the extraction library, when the first five pages yield
    a grid that has a row, the Tables are the frames of the grids of
    these pages that have a row, one Table per such grid; the text of
    the pages is not read and later pages do not count. *)
Theorem read_pdf_grids (raw : string) (pages : list page) (dfs : list DataFrame) :
  pdfplumber_open raw = Ok pages ->
  frames_of_grids (flat_map extract_tables (firstn 5 pages)) = Ok dfs ->
  dfs <> [] ->
  _read_pdf true raw = Ok dfs
  /\ List.length dfs
     = List.length (filter Py.nonempty (flat_map extract_tables (firstn 5 pages))).
Proof.
  intros Hopen Hframes Hne. split.
  - unfold _read_pdf. simpl negb. cbv iota. rewrite Hopen. unfold bind at 1.
    rewrite Hframes. unfold bind at 1. destruct dfs; [contradiction | reflexivity].
  - now apply frames_of_grids_length.
Qed.

Lemma header_of_text_row (names : list string) :
  forallb is_some (map (@Some string) names) = true
  /\ flat_map (fun x : option string => match x with
                                        | Some s => [s]
                                        | None => []
                                        end) (map (@Some string) names)
     = names.
Proof.
  induction names as [| n names [IH1 IH2]]; simpl; [now split |].
  now rewrite IH1, IH2.
Qed.

(** X23. A grid whose rows all have the width of its first row: when
    every cell of the first row is text, the first row gives the column
    names and only the other rows are data; when some cell of the first
    row is empty, the columns are numbered from 0 and the first row is
    data as well. *)
Theorem frame_of_rectangular_grid (t0 : list (option string)) (rest : grid) :
  t0 <> [] ->
  width_is (List.length t0) rest = true ->
  (forall names, t0 = map (@Some string) names ->
     frame_of_grid t0 rest
     = Ok (mkDataFrame (map LStr names) (map (map cell_of_grid) rest)))
  /\ (forallb is_some t0 = false ->
      frame_of_grid t0 rest
      = Ok (mkDataFrame (map (fun j => LInt (Z.of_nat j)) (seq 0 (List.length t0)))
              (map (map cell_of_grid) (t0 :: rest)))).
Proof.
  intros Hne Hwidth. unfold frame_of_grid. split.
  - intros names ->.
    destruct (header_of_text_row names) as [-> ->].
    rewrite Hwidth. destruct names; [contradiction | reflexivity].
  - intros ->. now rewrite Hwidth.
Qed.

Lemma map_result_spec {A B : Type} (f : A -> result B) (l : list A) (bs : list B) :
  map_result f l = Ok bs <-> Forall2 (fun a b => f a = Ok b) l bs.
Proof.
  revert bs. induction l as [| a l IH]; intros bs; simpl.
  - split; [intros [= <-]; constructor | intros H; now inversion H].
  - split.
    + destruct (f a) as [b |] eqn:Hb; [| discriminate]. simpl.
      destruct (map_result f l) as [bs' |]; [| discriminate]. simpl.
      intros [= <-]. constructor; [exact Hb | now apply IH].
    + intros H. inversion H as [| ? b ? bs' Hb Hrest]; subst.
      rewrite Hb. simpl. apply IH in Hrest. now rewrite Hrest.
Qed.

(** X24. The workbook decoder returns one Table per sheet, in sheet
    order, each the parse of its sheet; it returns only if every sheet
    parses. *)
Theorem read_excel_sheets (raw : string) (names : list string)
  (dfs : list DataFrame) :
  excel_sheet_names raw = Ok names ->
  (_read_excel raw = Ok dfs
   <-> Forall2 (fun name df => excel_parse raw name = Ok df) names dfs)
  /\ (_read_excel raw = Ok dfs -> List.length dfs = List.length names).
Proof.
  intros Hnames. unfold _read_excel. rewrite Hnames. unfold bind.
  split; [apply map_result_spec |].
  intros H. apply map_result_spec in H. symmetry.
  now apply (Forall2_length H).
Qed.

(** X25. The markup decoder prefers the table inference of the
    library: when it succeeds its Table is the result and the tree is
    not walked. When it fails and has left the buffer closed, the
    decoder fails with [ValueError] at the rewind of the buffer, and the
    tree is not parsed. When it fails and the buffer is still open, the
    tree walk decides, and a document that the tree parser refuses too
    is refused with the tree parser's error. *)
Theorem read_xml_order (raw : string) :
  (forall df, read_xml raw = Ok df -> _read_xml raw = Ok [df])
  /\ (is_ok (read_xml raw) = false -> read_xml_closes raw = true ->
      _read_xml raw = Raise ValueError)
  /\ (forall root, is_ok (read_xml raw) = false -> read_xml_closes raw = false ->
                   ET_parse raw = Ok root ->
                   _read_xml raw = Ok [xml_fallback root])
  /\ (forall e, is_ok (read_xml raw) = false -> read_xml_closes raw = false ->
                ET_parse raw = Raise e ->
                _read_xml raw = Raise e).
Proof.
  unfold _read_xml. repeat split.
  - intros df ->. reflexivity.
  - intros Hfail ->. destruct (read_xml raw); [discriminate Hfail | reflexivity].
  - intros root Hfail -> ->.
    destruct (read_xml raw); [discriminate Hfail | reflexivity].
  - intros e Hfail -> ->.
    destruct (read_xml raw); [discriminate Hfail | reflexivity].
Qed.

End TableFacts.

(** ** Runs of the further properties *)

(** X2 at the name [report.v2.CSV]. *)
Lemma upload_name_parts_witness :
  suffix_of "report.v2.CSV" = ".csv" /\ default_name "report.v2.CSV" = "report.v2".
Proof.
  destruct (upload_name_parts "report.v2" "CSV") as (Hsuffix & Hname & _).
  - intros c [<- | [<- | [<- | []]]]; split; (discriminate || reflexivity).
  - split; [exact Hsuffix | exact Hname].
Defined.

(** X3 at the name [data.JSON]. *)
Lemma read_file_of_upload_witness :
  @read_file reference_library reference_excel false "42" (suffix_of "data.JSON")
  = @read_file reference_library reference_excel false "42" ".JSON".
Proof.
  apply (@read_file_of_upload reference_library reference_excel false "42"
           "data" "JSON").
  intros c [<- | [<- | [<- | [<- | []]]]]; discriminate.
Defined.

(** X5 at a one-cell Table written as delimited text. *)
Lemma download_extension_matches_witness :
  In (ext_of "CSV", "text/csv")
    [("csv", "text/csv");
     ("xlsx", "application/vnd.openxmlformats-officedocument.spreadsheetml.sheet");
     ("json", "application/json");
     ("xml", "application/xml")].
Proof.
  apply (@download_extension_matches reference_library
           [mkDataFrame [LStr "a"] [[CInt 1]]] "CSV"
           (String "a" (String "010" (String "1" (String "010" ""))))
           "text/csv");
    [left; reflexivity | reflexivity].
Defined.

(** X11 at [<note id="7"> hi </note>]. *)
Lemma xml_flat_dump_witness :
  @xml_fallback reference_library
    (Element "note" [("id", "7")] (Some " hi ") [])
  = mkDataFrame [LStr "tag"; LStr "text"; LStr "id"]
      [[CStr "note"; CStr "hi"; CStr "7"]].
Proof.
  apply (proj1 (@xml_flat_dump reference_library
                  (Element "note" [("id", "7")] (Some " hi ") []) eq_refl)).
Defined.

(** X12 at [<r><p><b>2</b><a>1</a></p><q><a>3</a></q></r>]. *)
Lemma xml_leaf_parent_table_witness :
  @xml_fallback reference_library
    (Element "r" [] None
       [Element "p" [] None
          [Element "b" [] (Some "2") []; Element "a" [] (Some "1") []];
        Element "q" [] None [Element "a" [] (Some "3") []]])
  = mkDataFrame [LStr "a"; LStr "b"]
      [[CStr "1"; CStr "2"]; [CStr "3"; nan]].
Proof.
  refine (proj1 (@xml_leaf_parent_table reference_library
                   (Element "r" [] None
                      [Element "p" [] None
                         [Element "b" [] (Some "2") [];
                          Element "a" [] (Some "1") []];
                       Element "q" [] None [Element "a" [] (Some "3") []]]) _)).
  discriminate.
Defined.

(** X13 at the document [42]. *)
Lemma decoders_return_one_table_witness :
  exists df, [value_frame "42"] = [df].
Proof.
  apply (@decoders_return_one_table reference_library "42" [value_frame "42"]).
  right. left. reflexivity.
Defined.



(** X16 at a record of a string and a number. *)
Lemma read_json_flat_record_witness :
  @_read_json reference_library (Py.dq "{'name':'ann','age':7}")
  = Ok [mkDataFrame [LStr "name"; LStr "age"] [[CStr "ann"; CInt 7]]].
Proof.
  refine (proj2 (@read_json_flat_record reference_library
                   (Py.dq "{'name':'ann','age':7}")
                   [("name", JStr "ann"); ("age", JInt 7)] eq_refl _ _ _)).
  - discriminate.
  - repeat constructor; simpl; intuition discriminate.
  - intros kv [<- | [<- | []]]; split; reflexivity.
Defined.

(** X17 at two columns of three values. *)
Lemma read_json_table_of_arrays_witness :
  exists df,
    @_read_json reference_library (Py.dq "{'a':[1,2,3],'b':['x','y','z']}")
    = Ok [df]
    /\ columns df = [LStr "a"; LStr "b"]
    /\ List.length (rows df) = 3
    /\ rectangular df.
Proof.
  refine (@read_json_table_of_arrays reference_library
            (Py.dq "{'a':[1,2,3],'b':['x','y','z']}")
            [("a", JList [JInt 1; JInt 2; JInt 3]);
             ("b", JList [JStr "x"; JStr "y"; JStr "z"])] 3 eq_refl _ _).
  - discriminate.
  - intros kv [<- | [<- | []]]; eexists; split; reflexivity.
Defined.


(** X19 at a table of two columns and two rows. *)
Lemma read_csv_shape_witness :
  exists df,
    @_read_csv reference_library (unlines ["a,b"; "1,x"; "2,"]) = Ok [df]
    /\ columns df = [LStr "a"; LStr "b"]
    /\ List.length (rows df) = 2
    /\ rectangular df.
Proof.
  apply (@read_csv_shape reference_library (unlines ["a,b"; "1,x"; "2,"])
           [["a"; "b"]; ["1"; "x"]; ["2"; ""]] eq_refl eq_refl).
Defined.

(** X20 at the empty field of the second row. *)
Lemma read_csv_missing_witness :
  exists df,
    @_read_csv reference_library (unlines ["a,b"; "1,x"; "2,"]) = Ok [df]
    /\ nth 1 (map (fun row => nth 1 row CNone) (rows df)) CNone = nan.
Proof.
  apply (@read_csv_missing reference_library (unlines ["a,b"; "1,x"; "2,"])
           ["a"; "b"] [["1"; "x"]; ["2"; ""]] 1 1 eq_refl eq_refl);
    [apply le_n | apply le_n | | reflexivity].
  intros r [<- | [<- | []]] _; reflexivity.
Defined.

(** X22 at a document whose first page has a grid and whose second page
    has none. *)
Lemma read_pdf_grids_witness :
  @_read_pdf
    (with_pages [mkPage [[[Some "h"]; [Some "x"]]; []] (Some "t"); mkPage [] None])
    true ""
  = Ok [mkDataFrame [LStr "h"] [[CStr "x"]]].
Proof.
  refine (proj1 (@read_pdf_grids
                   (with_pages [mkPage [[[Some "h"]; [Some "x"]]; []] (Some "t");
                                mkPage [] None])
                   ""
                   [mkPage [[[Some "h"]; [Some "x"]]; []] (Some "t"); mkPage [] None]
                   [mkDataFrame [LStr "h"] [[CStr "x"]]] eq_refl eq_refl _)).
  discriminate.
Defined.

(** X23 at a grid with a header of two names and one row. *)
Lemma frame_of_rectangular_grid_witness :
  @frame_of_grid reference_library [Some "h1"; Some "h2"] [[Some "x"; None]]
  = Ok (mkDataFrame [LStr "h1"; LStr "h2"] [[CStr "x"; CNone]]).
Proof.
  refine (proj1 (@frame_of_rectangular_grid reference_library
                   [Some "h1"; Some "h2"] [[Some "x"; None]] _ eq_refl)
            ["h1"; "h2"] eq_refl).
  discriminate.
Defined.

(** X24 at the workbook of two sheets. *)
Lemma read_excel_sheets_witness :
  @_read_excel reference_excel ""
  = Ok [mkDataFrame [LStr "first"] []; mkDataFrame [LStr "second"] []].
Proof.
  apply (proj1 (@read_excel_sheets reference_excel ""
                  ["first"; "second"]
                  [mkDataFrame [LStr "first"] []; mkDataFrame [LStr "second"] []]
                  eq_refl)).
  repeat constructor.
Defined.
